(** * notbyai.space backend: moderation workflow and daily post quota

    A shallow embedding of [backend/server.py].  The two MongoDB
    collections are lists of documents in insertion order, the request
    handlers are computations in a state-and-exception monad over the
    database, and FastAPI's dependency injection ([Depends]) is the
    sequencing of the dependency before the handler body. *)

From Stdlib Require Import Ascii String ZArith List Bool Lia Sorted Permutation.
Import ListNotations.
Local Open Scope string_scope.
Local Open Scope Z_scope.

(** ** Models *)

Inductive UserRole := NEW_USER | MODERATOR | SEED_USER.
Inductive PostStatus := PENDING | APPROVED | REJECTED.
Inductive ContentTag :=
  HUMAN2HUMAN | INNERWORLD | WITSPARK | DEEPTHOUGHT | HEARTLED | CULTURALSOUL | ADAPTFLOW.

(** The string values of the [str, Enum] classes. *)
Definition UserRole_value (r : UserRole) : string :=
  match r with
  | NEW_USER => "new_user" | MODERATOR => "moderator" | SEED_USER => "seed_user"
  end.

Definition PostStatus_value (st : PostStatus) : string :=
  match st with
  | PENDING => "pending" | APPROVED => "approved" | REJECTED => "rejected"
  end.

Definition ContentTag_value (t : ContentTag) : string :=
  match t with
  | HUMAN2HUMAN => "Human2Human" | INNERWORLD => "InnerWorld"
  | WITSPARK => "WitSpark" | DEEPTHOUGHT => "DeepThought"
  | HEARTLED => "HeartLed" | CULTURALSOUL => "CulturalSoul"
  | ADAPTFLOW => "AdaptFlow"
  end.

Definition UserRole_eqb (a b : UserRole) : bool :=
  match a, b with
  | NEW_USER, NEW_USER | MODERATOR, MODERATOR | SEED_USER, SEED_USER => true
  | _, _ => false
  end.

Definition PostStatus_eqb (a b : PostStatus) : bool :=
  match a, b with
  | PENDING, PENDING | APPROVED, APPROVED | REJECTED, REJECTED => true
  | _, _ => false
  end.

(** Enum members in declaration order; a value is looked up by its string,
    which is how pydantic validates an enum-typed field. *)
Definition ContentTag_members : list ContentTag :=
  [HUMAN2HUMAN; INNERWORLD; WITSPARK; DEEPTHOUGHT; HEARTLED; CULTURALSOUL; ADAPTFLOW].
Definition PostStatus_members : list PostStatus := [PENDING; APPROVED; REJECTED].

Definition enum_of_value {E : Type} (value : E -> string) (members : list E)
    (s : string) : option E :=
  find (fun m => String.eqb (value m) s) members.

Definition ContentTag_of_value : string -> option ContentTag :=
  enum_of_value ContentTag_value ContentTag_members.
Definition PostStatus_of_value : string -> option PostStatus :=
  enum_of_value PostStatus_value PostStatus_members.

(** A [datetime] is an instant on the UTC time line; only its order is used. *)
Definition datetime := Z.

Module User.
Record t := mk {
  id : string;
  clerk_id : string;
  email : string;
  role : UserRole;
  posts_today : Z;
  last_post_date : option string;
  created_at : datetime
}.
End User.

Module Post.
Record t := mk {
  id : string;
  user_id : string;
  content : string;
  tag : ContentTag;
  status : PostStatus;
  resonates : Z;
  cherishes : Z;
  created_at : datetime;
  reviewed_at : option datetime;
  reviewer_id : option string
}.
End Post.

(** The model constructors with their defaults; the two [default_factory]
    fields are taken from the generator and the clock by the caller. *)
Definition User_init (id : string) (created_at : datetime)
    (clerk_id email : string) (role : UserRole) : User.t :=
  User.mk id clerk_id email role 0 None created_at.

Definition Post_init (id : string) (created_at : datetime)
    (user_id content : string) (tag : ContentTag) : Post.t :=
  Post.mk id user_id content tag PENDING 0 0 created_at None None.

Module PostCreate.
Record t := mk { content : string; tag : ContentTag }.
End PostCreate.

Module PostUpdate.
Record t := mk { status : PostStatus; reviewer_id : string }.
End PostUpdate.

Module UserCreate.
Record t := mk { email : string; invite_code : option string }.
End UserCreate.

(** ** The database and the handler monad *)

Record db := { users : list User.t; posts : list Post.t }.

(** What a request can be answered with instead of a result: an
    [HTTPException] raised by the code, or the 422 that FastAPI answers when
    the body does not validate against the declared model. *)
Inductive error :=
| HTTPException (status_code : Z) (detail : string)
| RequestValidationError (field : string).

Definition status_of (e : error) : Z :=
  match e with
  | HTTPException c _ => c
  | RequestValidationError _ => 422
  end.

Inductive result (A : Type) :=
| Ok (a : A)
| Raise (e : error).
Arguments Ok {A} a.
Arguments Raise {A} e.

(** Writes to the store that precede an exception stay: the state is
    returned beside the outcome, whatever the outcome is. *)
Definition M (A : Type) := db -> result A * db.

Definition ret {A} (a : A) : M A := fun s => (Ok a, s).
Definition raise {A} (e : error) : M A := fun s => (Raise e, s).
Definition lift {A} (r : result A) : M A := fun s => (r, s).
Definition bind {A B} (m : M A) (k : A -> M B) : M B :=
  fun s => match m s with
           | (Ok a, s') => k a s'
           | (Raise e, s') => (Raise e, s')
           end.

Declare Scope handler_scope.
Delimit Scope handler_scope with handler.
Notation "x <- m ;; k" := (bind m (fun x => k))
  (at level 61, m at next level, right associativity) : handler_scope.
Notation "m ;;; k" := (bind m (fun _ => k))
  (at level 61, right associativity) : handler_scope.
Local Open Scope handler_scope.

(** *** Collection primitives *)

(** [find_one]: the first document, in natural order, matching the filter. *)
Definition find_one {A} (filter : A -> bool) (coll : list A) : option A :=
  find filter coll.

(** [update_one]: apply the update to the first matching document only;
    nothing happens when none matches (no upsert). *)
Fixpoint update_one {A} (filter : A -> bool) (upd : A -> A) (coll : list A) : list A :=
  match coll with
  | [] => []
  | d :: rest => if filter d then upd d :: rest else d :: update_one filter upd rest
  end.

(** [insert_one]: the new document comes last in natural order. *)
Definition insert_one {A} (doc : A) (coll : list A) : list A := coll ++ [doc].

Definition count_documents {A} (filter : A -> bool) (coll : list A) : Z :=
  Z.of_nat (length (List.filter filter coll)).

(** [sort(key, 1)] and [sort(key, -1)]: an insertion sort on the key, stable
    among equal keys. *)
Inductive direction := ASCENDING | DESCENDING.

Definition in_order (dir : direction) (a b : Z) : bool :=
  match dir with
  | ASCENDING => a <=? b
  | DESCENDING => b <=? a
  end.

Fixpoint sort_insert {A} (key : A -> Z) (dir : direction) (x : A) (l : list A) : list A :=
  match l with
  | [] => [x]
  | y :: rest =>
      if in_order dir (key x) (key y) then x :: l
      else y :: sort_insert key dir x rest
  end.

Fixpoint sort {A} (key : A -> Z) (dir : direction) (l : list A) : list A :=
  match l with
  | [] => []
  | x :: rest => sort_insert key dir x (sort key dir rest)
  end.

(** Two documents stand in the order of the sort. *)
Definition ordered {A} (key : A -> Z) (dir : direction) (a b : A) : Prop :=
  in_order dir (key a) (key b) = true.

(** [to_list(n)] and [limit(n)]: at most the first [n] documents. *)
Definition to_list {A} (n : nat) (l : list A) : list A := firstn n l.
Definition limit {A} (n : nat) (l : list A) : list A := firstn n l.

Definition users_find_one (filter : User.t -> bool) : M (option User.t) :=
  fun s => (Ok (find_one filter (users s)), s).
Definition users_insert_one (doc : User.t) : M unit :=
  fun s => (Ok tt, {| users := insert_one doc (users s); posts := posts s |}).
Definition users_update_one (filter : User.t -> bool) (upd : User.t -> User.t) : M unit :=
  fun s => (Ok tt, {| users := update_one filter upd (users s); posts := posts s |}).
Definition users_count_documents (filter : User.t -> bool) : M Z :=
  fun s => (Ok (count_documents filter (users s)), s).

Definition posts_find_one (filter : Post.t -> bool) : M (option Post.t) :=
  fun s => (Ok (find_one filter (posts s)), s).
Definition posts_find (filter : Post.t -> bool) : M (list Post.t) :=
  fun s => (Ok (List.filter filter (posts s)), s).
Definition posts_insert_one (doc : Post.t) : M unit :=
  fun s => (Ok tt, {| users := users s; posts := insert_one doc (posts s) |}).
Definition posts_update_one (filter : Post.t -> bool) (upd : Post.t -> Post.t) : M unit :=
  fun s => (Ok tt, {| users := users s; posts := update_one filter upd (posts s) |}).
Definition posts_count_documents (filter : Post.t -> bool) : M Z :=
  fun s => (Ok (count_documents filter (posts s)), s).

(** Filters [{"id": i}], [{"clerk_id": c}], [{"email": e}], [{"status": st}]. *)
Definition key_is {A} (key : A -> string) (k : string) (x : A) : bool :=
  String.eqb (key x) k.
Definition user_id_is : string -> User.t -> bool := key_is User.id.
Definition clerk_id_is : string -> User.t -> bool := key_is User.clerk_id.
Definition email_is : string -> User.t -> bool := key_is User.email.
Definition post_id_is : string -> Post.t -> bool := key_is Post.id.
Definition status_is (st : PostStatus) (p : Post.t) : bool := PostStatus_eqb (Post.status p) st.

(** Updates [$set] and [$inc] on the fields the handlers touch. *)
Definition set_quota (n : Z) (day : string) (u : User.t) : User.t :=
  User.mk (User.id u) (User.clerk_id u) (User.email u) (User.role u)
          n (Some day) (User.created_at u).
Definition inc_posts_today (k : Z) (u : User.t) : User.t :=
  User.mk (User.id u) (User.clerk_id u) (User.email u) (User.role u)
          (User.posts_today u + k) (User.last_post_date u) (User.created_at u).
Definition set_review (st : PostStatus) (at_ : datetime) (by_ : string) (p : Post.t) : Post.t :=
  Post.mk (Post.id p) (Post.user_id p) (Post.content p) (Post.tag p)
          st (Post.resonates p) (Post.cherishes p) (Post.created_at p)
          (Some at_) (Some by_).
Definition inc_resonates (k : Z) (p : Post.t) : Post.t :=
  Post.mk (Post.id p) (Post.user_id p) (Post.content p) (Post.tag p)
          (Post.status p) (Post.resonates p + k) (Post.cherishes p) (Post.created_at p)
          (Post.reviewed_at p) (Post.reviewer_id p).
Definition inc_cherishes (k : Z) (p : Post.t) : Post.t :=
  Post.mk (Post.id p) (Post.user_id p) (Post.content p) (Post.tag p)
          (Post.status p) (Post.resonates p) (Post.cherishes p + k) (Post.created_at p)
          (Post.reviewed_at p) (Post.reviewer_id p).

(** ** What a request brings from outside the program *)

(** The clock and the identifier generator as one request observes them:
    [today] is [datetime.now(timezone.utc).strftime('%Y-%m-%d')], [now] is
    [datetime.now(timezone.utc)], and [uuid4 k] is the string of the [k]-th
    [uuid.uuid4()] call the request makes. *)
Record Env := { today : string; now : datetime; uuid4 : nat -> string }.

(** The decoded token payload, as far as the handlers read it:
    [payload.get('sub')] and [payload.get('email')], each a string, or [None]
    when the key is absent or null. *)
Record Payload := { sub : option string; email : option string }.

(** Python's [not v] on a value that is [None] or a string. *)
Definition not_ (v : option string) : bool :=
  match v with
  | None => true
  | Some s => String.eqb s ""
  end.

(** JSON bodies before validation: each declared field is absent or holds a
    string. *)
Record PostCreate_body := { body_content : option string; body_tag : option string }.
Record PostUpdate_body := { body_status : option string; body_reviewer_id : option string }.

(** Validation against [PostCreate]: both fields are required, [content] is
    any [str], [tag] must be the value of a [ContentTag] member. *)
Definition validate_PostCreate (body : PostCreate_body) : result PostCreate.t :=
  match body_content body with
  | None => Raise (RequestValidationError "content")
  | Some c =>
      match body_tag body with
      | None => Raise (RequestValidationError "tag")
      | Some t =>
          match ContentTag_of_value t with
          | None => Raise (RequestValidationError "tag")
          | Some tg => Ok {| PostCreate.content := c; PostCreate.tag := tg |}
          end
      end
  end.

(** Validation against [PostUpdate]: [status] must be the value of a
    [PostStatus] member, [reviewer_id] is a required [str]. *)
Definition validate_PostUpdate (body : PostUpdate_body) : result PostUpdate.t :=
  match body_status body with
  | None => Raise (RequestValidationError "status")
  | Some st =>
      match PostStatus_of_value st with
      | None => Raise (RequestValidationError "status")
      | Some v =>
          match body_reviewer_id body with
          | None => Raise (RequestValidationError "reviewer_id")
          | Some r => Ok {| PostUpdate.status := v; PostUpdate.reviewer_id := r |}
          end
      end
  end.

(** ** Helper functions *)

Definition get_current_user (payload : Payload) : M User.t :=
  let clerk_id := sub payload in
  if not_ clerk_id
  then raise (HTTPException 401 "Invalid token")
  else
    match clerk_id with
    | Some clerk_id =>
        user <- users_find_one (clerk_id_is clerk_id) ;;
        match user with
        | None => raise (HTTPException 404 "User not found")
        | Some user => ret user
        end
    | None => raise (HTTPException 401 "Invalid token")
    end.

Definition is_moderator_role (r : UserRole) : bool :=
  UserRole_eqb r MODERATOR || UserRole_eqb r SEED_USER.

Definition require_moderator (user : User.t) : M User.t :=
  if negb (is_moderator_role (User.role user))
  then raise (HTTPException 403 "Moderator access required")
  else ret user.

(** [user.last_post_date == today], where the field is [None] or a string. *)
Definition is_day (d : option string) (day : string) : bool :=
  match d with
  | Some d => String.eqb d day
  | None => false
  end.

(** [check_daily_limit] also assigns to the fields of the [user] object it
    was given; the object after the call is the result. *)
Definition check_daily_limit (env : Env) (user : User.t) : M User.t :=
  let today := today env in
  user <-
    (if negb (is_day (User.last_post_date user) today)
     then users_update_one (user_id_is (User.id user)) (set_quota 0 today) ;;;
          ret (set_quota 0 today user)
     else ret user) ;;
  if 3 <=? User.posts_today user
  then raise (HTTPException 429 "Daily post limit reached (3 posts per day)")
  else ret user.

(** ** Routes *)

Definition root : M string := ret "Not by AI.space API".

Definition register_user (env : Env) (user_data : UserCreate.t) : M (string * option string) :=
  existing_user <- users_find_one (email_is (UserCreate.email user_data)) ;;
  match existing_user with
  | Some _ => ret ("User already exists", None)
  | None =>
      let role :=
        match UserCreate.invite_code user_data with
        | Some code => if String.eqb code "aieventuallylose" then MODERATOR else NEW_USER
        | None => NEW_USER
        end in
      let user := User_init (uuid4 env 1%nat) (now env)
                            (uuid4 env 0%nat) (UserCreate.email user_data) role in
      users_insert_one user ;;;
      ret ("User registered successfully", Some (UserRole_value role))
  end.

Definition sync_user (env : Env) (payload : Payload) : M (string * User.t) :=
  let clerk_id := sub payload in
  let email := email payload in
  if not_ clerk_id || not_ email
  then raise (HTTPException 400 "Invalid token payload")
  else
    match clerk_id, email with
    | Some clerk_id, Some email =>
        user <- users_find_one (clerk_id_is clerk_id) ;;
        match user with
        | None =>
            let new_user := User_init (uuid4 env 0%nat) (now env)
                                      clerk_id email NEW_USER in
            users_insert_one new_user ;;;
            ret ("User created", new_user)
        | Some user => ret ("User exists", user)
        end
    | _, _ => raise (HTTPException 400 "Invalid token payload")
    end.

Definition get_me (user : User.t) : M User.t := ret user.

Definition create_post (env : Env) (post_data : PostCreate.t) (user : User.t)
    : M (string * string) :=
  user <- check_daily_limit env user ;;
  let post := Post_init (uuid4 env 0%nat) (now env)
                        (User.id user) (PostCreate.content post_data) (PostCreate.tag post_data) in
  posts_insert_one post ;;;
  users_update_one (user_id_is (User.id user)) (inc_posts_today 1) ;;;
  ret ("Post created successfully", Post.id post).

(** A post document as the handlers hold it after the query: the stored
    fields and, once the loop has assigned it, the key ["user_email"]. *)
Record PostDict := { fields : Post.t; user_email : option string }.

Definition from_store (p : Post.t) : PostDict := {| fields := p; user_email := None |}.

(** Building a [Post] from the keys of the dictionary (the double-star call
    of the source): the model takes the keys it declares; [Post] declares no
    [user_email], and a key the model does not declare is ignored. *)
Definition Post_of_dict (d : PostDict) : Post.t := fields d.

(** The loop [for post in posts: ... post["user_email"] = ...]. *)
Fixpoint add_user_email (placeholder : string) (posts : list PostDict) : M (list PostDict) :=
  match posts with
  | [] => ret []
  | post :: rest =>
      user <- users_find_one (user_id_is (Post.user_id (fields post))) ;;
      let post := {| fields := fields post;
                     user_email := Some match user with
                                        | Some user => User.email user
                                        | None => placeholder
                                        end |} in
      rest <- add_user_email placeholder rest ;;
      ret (post :: rest)
  end.

Definition get_pending_posts (moderator : User.t) : M (list Post.t) :=
  found <- posts_find (status_is PENDING) ;;
  let posts := to_list 100 (sort Post.created_at ASCENDING found) in
  posts <- add_user_email "Unknown" (map from_store posts) ;;
  ret (map Post_of_dict posts).

Definition review_post (env : Env) (post_id : string) (review_data : PostUpdate.t)
    (moderator : User.t) : M string :=
  post <- posts_find_one (post_id_is post_id) ;;
  match post with
  | None => raise (HTTPException 404 "Post not found")
  | Some post =>
      if negb (PostStatus_eqb (Post.status post) PENDING)
      then raise (HTTPException 400 "Post already reviewed")
      else
        posts_update_one (post_id_is post_id)
          (set_review (PostUpdate.status review_data) (now env) (User.id moderator)) ;;;
        ret ("Post " ++ PostStatus_value (PostUpdate.status review_data))
  end.

Definition get_approved_posts (moderator : User.t) : M (list Post.t) :=
  found <- posts_find (status_is APPROVED) ;;
  let posts := to_list 100 (sort Post.created_at DESCENDING found) in
  ret (map Post_of_dict (map from_store posts)).

Definition get_daily_feed (env : Env) (user : User.t) : M (list Post.t) :=
  let today := today env in
  found <- posts_find (status_is APPROVED) ;;
  let posts := to_list 3 (limit 3 (sort Post.created_at DESCENDING found)) in
  posts <- add_user_email "Anonymous" (map from_store posts) ;;
  ret (map Post_of_dict posts).

Definition resonate_post (post_id : string) (user : User.t) : M string :=
  posts_update_one (post_id_is post_id) (inc_resonates 1) ;;;
  ret "Resonated with post".

Definition cherish_post (post_id : string) (user : User.t) : M string :=
  posts_update_one (post_id_is post_id) (inc_cherishes 1) ;;;
  ret "Cherished post".

Definition get_stats (moderator : User.t) : M (Z * Z * Z) :=
  pending_count <- posts_count_documents (status_is PENDING) ;;
  approved_count <- posts_count_documents (status_is APPROVED) ;;
  total_users <- users_count_documents (fun _ => true) ;;
  ret (pending_count, approved_count, total_users).

(** ** Requests

    A route runs its dependencies, then validates the body, then calls the
    handler with what they produced. *)

Inductive request :=
| POST_auth_register (user_data : UserCreate.t)
| POST_auth_sync (payload : Payload)
| GET_me (payload : Payload)
| POST_posts (payload : Payload) (body : PostCreate_body)
| GET_posts_pending (payload : Payload)
| PUT_posts_review (payload : Payload) (post_id : string) (body : PostUpdate_body)
| GET_posts_approved (payload : Payload)
| GET_feed (payload : Payload)
| POST_posts_resonate (payload : Payload) (post_id : string)
| POST_posts_cherish (payload : Payload) (post_id : string)
| GET_stats (payload : Payload).

Inductive response :=
| Message (message : string)
| Registered (message : string) (role : option string)
| Synced (message : string) (user : User.t)
| TheUser (user : User.t)
| Created (message : string) (post_id : string)
| Posts (posts : list Post.t)
| Stats (pending_posts approved_posts total_users : Z).

Definition fmap {A B} (f : A -> B) (m : M A) : M B := a <- m ;; ret (f a).

Definition serve (env : Env) (req : request) : M response :=
  match req with
  | POST_auth_register user_data =>
      fmap (fun r => Registered (fst r) (snd r)) (register_user env user_data)
  | POST_auth_sync payload =>
      fmap (fun r => Synced (fst r) (snd r)) (sync_user env payload)
  | GET_me payload =>
      user <- get_current_user payload ;;
      fmap TheUser (get_me user)
  | POST_posts payload body =>
      user <- get_current_user payload ;;
      post_data <- lift (validate_PostCreate body) ;;
      fmap (fun r => Created (fst r) (snd r)) (create_post env post_data user)
  | GET_posts_pending payload =>
      user <- get_current_user payload ;;
      moderator <- require_moderator user ;;
      fmap Posts (get_pending_posts moderator)
  | PUT_posts_review payload post_id body =>
      user <- get_current_user payload ;;
      moderator <- require_moderator user ;;
      review_data <- lift (validate_PostUpdate body) ;;
      fmap Message (review_post env post_id review_data moderator)
  | GET_posts_approved payload =>
      user <- get_current_user payload ;;
      moderator <- require_moderator user ;;
      fmap Posts (get_approved_posts moderator)
  | GET_feed payload =>
      user <- get_current_user payload ;;
      fmap Posts (get_daily_feed env user)
  | POST_posts_resonate payload post_id =>
      user <- get_current_user payload ;;
      fmap Message (resonate_post post_id user)
  | POST_posts_cherish payload post_id =>
      user <- get_current_user payload ;;
      fmap Message (cherish_post post_id user)
  | GET_stats payload =>
      user <- get_current_user payload ;;
      moderator <- require_moderator user ;;
      fmap (fun r => Stats (fst (fst r)) (snd (fst r)) (snd r)) (get_stats moderator)
  end.

(** A run of the server on a sequence of requests, one after the other. *)
Fixpoint serve_all (reqs : list (Env * request)) (s : db) : list (result response) * db :=
  match reqs with
  | [] => ([], s)
  | (env, req) :: rest =>
      let (out, s') := serve env req s in
      let (outs, s'') := serve_all rest s' in
      (out :: outs, s'')
  end.


(** ** Observations on runs *)

(** The user a payload resolves to, or the exception of the dependency. *)
Definition caller (payload : Payload) (s : db) : result User.t :=
  fst (get_current_user payload s).

Definition final (reqs : list (Env * request)) (s : db) : db := snd (serve_all reqs s).

Definition is_ok {A} (r : result A) : bool :=
  match r with
  | Ok _ => true
  | Raise _ => false
  end.

(** User identifiers are generated, hence distinct. *)
Definition wf_db (s : db) : Prop := NoDup (map User.id (users s)).

(** The identifier a request gives to the user document it may insert. *)
Definition new_user_id (env : Env) (req : request) : option string :=
  match req with
  | POST_auth_register _ => Some (uuid4 env 1%nat)
  | POST_auth_sync _ => Some (uuid4 env 0%nat)
  | _ => None
  end.

(** The generator does not hand out an identifier already in use. *)
Definition fresh_ids (env : Env) (req : request) (s : db) : Prop :=
  match new_user_id env req with
  | Some i => ~ In i (map User.id (users s))
  | None => True
  end.

Fixpoint fresh_run (reqs : list (Env * request)) (s : db) : Prop :=
  match reqs with
  | [] => True
  | (env, req) :: rest => fresh_ids env req s /\ fresh_run rest (snd (serve env req s))
  end.

(** All requests of the run are served on the calendar day [day]. *)
Definition same_day (day : string) (reqs : list (Env * request)) : Prop :=
  Forall (fun er => today (fst er) = day) reqs.

(** The request is a post creation by the caller whose subject is [c]. *)
Definition creates_by (c : string) (req : request) : bool :=
  match req with
  | POST_posts payload _ =>
      match sub payload with
      | Some c' => String.eqb c' c
      | None => false
      end
  | _ => false
  end.

(** Number of post creations by [c] that succeed in the run from [s]. *)
Fixpoint created_by (c : string) (reqs : list (Env * request)) (s : db) : Z :=
  match reqs with
  | [] => 0
  | (env, req) :: rest =>
      let (out, s') := serve env req s in
      (if creates_by c req && is_ok out then 1 else 0) + created_by c rest s'
  end.

(** The stored quota fields of the user a subject resolves to. *)
Definition stored_date (c : string) (s : db) : option (option string) :=
  option_map User.last_post_date (find_one (clerk_id_is c) (users s)).
Definition stored_count (c : string) (s : db) : option Z :=
  option_map User.posts_today (find_one (clerk_id_is c) (users s)).

Definition opt_date_eqb (a b : option (option string)) : bool :=
  match a, b with
  | Some (Some x), Some (Some y) => String.eqb x y
  | Some None, Some None => true
  | None, None => true
  | _, _ => false
  end.

(** Number of requests of the run at which the stored [last_post_date] of
    [c] changes: the day rollovers of that user. *)
Fixpoint rollovers (c : string) (reqs : list (Env * request)) (s : db) : nat :=
  match reqs with
  | [] => 0
  | (env, req) :: rest =>
      let s' := snd (serve env req s) in
      ((if opt_date_eqb (stored_date c s) (stored_date c s') then 0 else 1)
       + rollovers c rest s')%nat
  end.

(** What a user has used of the quota of [day]. *)
Definition quota_used (day : string) (u : User.t) : Z :=
  if is_day (User.last_post_date u) day then User.posts_today u else 0.

(** The user document after a successful creation on the day of [env]. *)
Definition after_create (env : Env) (u : User.t) : User.t :=
  inc_posts_today 1
    (if is_day (User.last_post_date u) (today env) then u
     else set_quota 0 (today env) u).

(** ** A small store and a few requests, for the examples *)

Definition alice : User.t :=
  User.mk "u-alice" "clerk_alice" "alice@example.com" NEW_USER 2 (Some "2024-05-01") 10.
Definition mona : User.t :=
  User.mk "u-mona" "clerk_mona" "mona@example.com" MODERATOR 0 None 11.
Definition sam : User.t :=
  User.mk "u-sam" "clerk_sam" "sam@example.com" SEED_USER 0 None 12.

Definition as_alice : Payload :=
  {| sub := Some "clerk_alice"; email := Some "alice@example.com" |}.
Definition as_mona : Payload :=
  {| sub := Some "clerk_mona"; email := Some "mona@example.com" |}.
Definition as_sam : Payload :=
  {| sub := Some "clerk_sam"; email := Some "sam@example.com" |}.

Definition post1 : Post.t :=
  Post.mk "p1" "u-alice" "first" HUMAN2HUMAN PENDING 0 0 100 None None.
Definition post2 : Post.t :=
  Post.mk "p2" "u-alice" "second" WITSPARK APPROVED 4 1 120 (Some 130) (Some "u-mona").
Definition post3 : Post.t :=
  Post.mk "p3" "u-gone" "third" HEARTLED APPROVED 0 0 110 (Some 131) (Some "u-sam").

Definition db0 : db := {| users := [alice; mona; sam]; posts := [post1; post2; post3] |}.

(** A request served on [day] at instant [t], the generator handing out
    [i] and then [i'] *)
Definition env_at (day : string) (t : datetime) (i : string) : Env :=
  {| today := day; now := t;
     uuid4 := fun k => match k with O => i | S _ => i ++ "'" end |}.

Definition a_post (text : string) : PostCreate_body :=
  {| body_content := Some text; body_tag := Some "Human2Human" |}.
Definition a_review (st : string) : PostUpdate_body :=
  {| body_status := Some st; body_reviewer_id := Some "anyone" |}.

(** Alice posts three times on 2 May, between other requests. *)
Definition second_of_may : list (Env * request) :=
  [ (env_at "2024-05-02" 200 "n1", POST_posts as_alice (a_post "one"));
    (env_at "2024-05-02" 201 "n2", GET_feed as_mona);
    (env_at "2024-05-02" 202 "n3", POST_posts as_alice (a_post "two"));
    (env_at "2024-05-02" 203 "n4", POST_posts as_mona (a_post "hers"));
    (env_at "2024-05-02" 204 "n5", POST_auth_sync {| sub := Some "clerk_zoe";
                                                    email := Some "zoe@example.com" |});
    (env_at "2024-05-02" 205 "n6", POST_posts as_alice (a_post "three")) ].

(** Listings in creation-time order. *)
Definition ascending (l : list Post.t) : Prop :=
  StronglySorted (fun a b => Post.created_at a <= Post.created_at b) l.
Definition descending (l : list Post.t) : Prop :=
  StronglySorted (fun a b => Post.created_at b <= Post.created_at a) l.

(** [db0] with Alice's email changed, and with Alice gone. *)
Definition alice_renamed : User.t :=
  User.mk "u-alice" "clerk_alice" "renamed@example.com" NEW_USER 2 (Some "2024-05-01") 10.
Definition db0_renamed : db :=
  {| users := [alice_renamed; mona; sam]; posts := [post1; post2; post3] |}.
Definition db0_without_alice : db :=
  {| users := [mona; sam]; posts := [post1; post2; post3] |}.

(** Two post documents that differ at most in their reaction counters. *)
Definition same_but_counters (p p' : Post.t) : Prop :=
  Post.id p' = Post.id p /\ Post.user_id p' = Post.user_id p /\
  Post.content p' = Post.content p /\ Post.tag p' = Post.tag p /\
  Post.status p' = Post.status p /\ Post.created_at p' = Post.created_at p /\
  Post.reviewed_at p' = Post.reviewed_at p /\ Post.reviewer_id p' = Post.reviewer_id p.

Definition as_zoe : Payload :=
  {| sub := Some "clerk_zoe"; email := Some "zoe@example.com" |}.

(** ** Decoding the bearer token *)

(** [s.split(sep)] for a one-character separator: the segments between the
    occurrences of [sep], one more than there are occurrences. *)
Fixpoint split (sep : Ascii.ascii) (s : string) : list string :=
  match s with
  | EmptyString => [EmptyString]
  | String c rest =>
      match split sep rest with
      | seg :: segs =>
          if Ascii.eqb c sep then EmptyString :: seg :: segs
          else String c seg :: segs
      | [] => [String c EmptyString]
      end
  end.

(** [c in s] for a character [c]. *)
Fixpoint has_char (c : Ascii.ascii) (s : string) : bool :=
  match s with
  | EmptyString => false
  | String a rest => Ascii.eqb a c || has_char c rest
  end.

(** [s * n]: [n] copies of [s], none when [n <= 0]. *)
Definition str_mul (s : string) (n : Z) : string :=
  String.concat "" (repeat s (Z.to_nat n)).

(** The padding [verify_clerk_token] appends:
    [payload_part += '=' * (-len(payload_part) % 4)]. *)
Definition add_padding (payload_part : string) : string :=
  payload_part ++ str_mul "=" ((- Z.of_nat (String.length payload_part)) mod 4).

(** [s.rstrip(c)] for a one-character [c], as the test's token builder calls
    it on the base64 text. *)
Fixpoint rstrip (c : Ascii.ascii) (s : string) : string :=
  match s with
  | EmptyString => EmptyString
  | String a rest =>
      match rstrip c rest with
      | EmptyString => if Ascii.eqb a c then EmptyString else String a EmptyString
      | r => String a r
      end
  end.

(** The token of the test: the three parts joined by dots. *)
Definition join_token (header_b64 payload_b64 signature : string) : string :=
  header_b64 ++ "." ++ payload_b64 ++ "." ++ signature.

Section TokenDecoding.
(** The two library calls of [verify_clerk_token]; [None] stands for the
    exception they raise.  [json_loads] gives the payload as the handlers
    read it. *)
Variable urlsafe_b64decode : string -> option string.
Variable json_loads : string -> option Payload.

(** Every exception inside becomes the 401 of the handler. *)
Definition verify_clerk_token (credentials : string) : result Payload :=
  let token := credentials in
  match nth_error (split "."%char token) 1 with
  | None => Raise (HTTPException 401 "Invalid token")
  | Some payload_part =>
      let payload_part := add_padding payload_part in
      match urlsafe_b64decode payload_part with
      | None => Raise (HTTPException 401 "Invalid token")
      | Some decoded =>
          match json_loads decoded with
          | None => Raise (HTTPException 401 "Invalid token")
          | Some payload => Ok payload
          end
      end
  end.

(** [get_current_user] behind its dependency, from the bearer token on. *)
Definition current_user_of_token (credentials : string) : M User.t :=
  payload <- lift (verify_clerk_token credentials) ;;
  get_current_user payload.
End TokenDecoding.

(** ** More observations on requests and runs *)

(** The payload a request carries, when its route has the bearer dependency. *)
Definition payload_of (req : request) : option Payload :=
  match req with
  | POST_auth_register _ => None
  | POST_auth_sync payload | GET_me payload | POST_posts payload _
  | GET_posts_pending payload | PUT_posts_review payload _ _
  | GET_posts_approved payload | GET_feed payload
  | POST_posts_resonate payload _ | POST_posts_cherish payload _
  | GET_stats payload => Some payload
  end.

(** The routes declared with [Depends(require_moderator)]. *)
Definition moderators_only (req : request) : bool :=
  match req with
  | GET_posts_pending _ | PUT_posts_review _ _ _ | GET_posts_approved _ | GET_stats _ => true
  | _ => false
  end.

(** The status codes of the exceptions each route can end in. *)
Definition error_statuses (req : request) : list Z :=
  match req with
  | POST_auth_register _ => []
  | POST_auth_sync _ => [400]
  | GET_me _ | GET_feed _ | POST_posts_resonate _ _ | POST_posts_cherish _ _ => [401; 404]
  | POST_posts _ _ => [401; 404; 422; 429]
  | GET_posts_pending _ | GET_posts_approved _ | GET_stats _ => [401; 404; 403]
  | PUT_posts_review _ _ _ => [401; 404; 403; 422; 400]
  end.

(** Two user documents that differ at most in the quota fields. *)
Definition same_identity (u u' : User.t) : Prop :=
  User.id u' = User.id u /\ User.clerk_id u' = User.clerk_id u /\
  User.email u' = User.email u /\ User.role u' = User.role u /\
  User.created_at u' = User.created_at u.

(** Two post documents of which the second is a later state of the first:
    what the author wrote is kept and the reaction counters have not gone
    down. *)
Definition later_state (p p' : Post.t) : Prop :=
  Post.id p' = Post.id p /\ Post.user_id p' = Post.user_id p /\
  Post.content p' = Post.content p /\ Post.tag p' = Post.tag p /\
  Post.created_at p' = Post.created_at p /\
  Post.resonates p <= Post.resonates p' /\ Post.cherishes p <= Post.cherishes p'.

(** The three numbers of [get_stats], read off the store. *)
Definition pending_posts (s : db) : Z := count_documents (status_is PENDING) (posts s).
Definition approved_posts (s : db) : Z := count_documents (status_is APPROVED) (posts s).
Definition total_users (s : db) : Z := count_documents (fun _ : User.t => true) (users s).

(** Decoders for the examples: the decoded text is the base64 text itself,
    and the JSON text is taken as the subject. *)
Definition toy_b64decode (s : string) : option string :=
  if String.eqb s "" then None else Some s.
Definition toy_json_loads (s : string) : option Payload :=
  Some {| sub := Some s; email := None |}.

Definition a_registration (mail : string) (code : option string) : UserCreate.t :=
  {| UserCreate.email := mail; UserCreate.invite_code := code |}.

(** A store in which Alice has used the quota of 2 May. *)
Definition alice_full : User.t :=
  User.mk "u-alice" "clerk_alice" "alice@example.com" NEW_USER 3 (Some "2024-05-02") 10.
Definition db_full : db := {| users := [alice_full; mona; sam]; posts := [post1; post2; post3] |}.

(** The two reaction routes. *)
Definition is_reaction (req : request) : bool :=
  match req with
  | POST_posts_resonate _ _ | POST_posts_cherish _ _ => true
  | _ => false
  end.

(** ** Facts about the collection primitives *)

Section Collections.
Context {A : Type}.
Implicit Types (l : list A) (P Q : A -> bool) (upd : A -> A).

Lemma find_one_insert_one_some P l d x :
  find_one P l = Some d -> find_one P (insert_one x l) = Some d.
Proof.
  unfold find_one, insert_one. induction l as [|y l IH]; simpl.
  - discriminate.
  - destruct (P y); auto.
Qed.

Lemma find_one_insert_one_none P l x :
  find_one P l = None ->
  find_one P (insert_one x l) = if P x then Some x else None.
Proof.
  unfold find_one, insert_one. induction l as [|y l IH]; simpl.
  - reflexivity.
  - destruct (P y); [discriminate | exact IH].
Qed.

Lemma update_one_none P upd l :
  find_one P l = None -> update_one P upd l = l.
Proof.
  unfold find_one. induction l as [|y l IH]; simpl; auto.
  destruct (P y); [discriminate|]. intros H. now rewrite IH.
Qed.

Lemma update_one_length P upd l : length (update_one P upd l) = length l.
Proof.
  induction l as [|y l IH]; simpl; auto. destruct (P y); simpl; auto.
Qed.

Lemma update_one_map {B} (f : A -> B) P upd l :
  (forall x, f (upd x) = f x) -> map f (update_one P upd l) = map f l.
Proof.
  intros Hf. induction l as [|y l IH]; simpl; auto.
  destruct (P y); simpl; [now rewrite Hf | now rewrite IH].
Qed.

(** The updated document is the one [find_one] returns for the same filter. *)
Lemma find_one_update_one_same P upd l :
  (forall x, P (upd x) = P x) ->
  find_one P (update_one P upd l) = option_map upd (find_one P l).
Proof.
  intros HP. unfold find_one. induction l as [|y l IH]; simpl; auto.
  destruct (P y) eqn:E; simpl.
  - now rewrite HP, E.
  - now rewrite E.
Qed.

(** Position by position, [update_one] leaves a document alone or, at the
    position [find_one] selects, replaces it by its update. *)
Lemma nth_error_update_one P upd l n d :
  nth_error l n = Some d ->
  nth_error (update_one P upd l) n = Some d \/
  (find_one P l = Some d /\ nth_error (update_one P upd l) n = Some (upd d)).
Proof.
  unfold find_one. revert n. induction l as [|y l IH]; intros [|n]; simpl; try discriminate.
  - intros [= ->]. destruct (P d) eqn:E; simpl; auto.
  - intros H. destruct (P y) eqn:E; simpl; auto.
Qed.

Lemma nth_error_insert_one l n d x :
  nth_error l n = Some d -> nth_error (insert_one x l) n = Some d.
Proof.
  unfold insert_one. intros H. rewrite nth_error_app1; auto.
  apply nth_error_Some. congruence.
Qed.

Lemma find_one_some P l d : find_one P l = Some d -> In d l /\ P d = true.
Proof. apply find_some. Qed.

Lemma firstn_In n l x : In x (firstn n l) -> In x l.
Proof.
  revert l. induction n as [|n IH]; intros [|y l]; simpl; try tauto.
  intros [->|H]; auto.
Qed.
End Collections.

(** *** Documents with distinct identifiers *)

Section DistinctKeys.
Context {A : Type} (key : A -> string).
Implicit Types (l : list A) (Q : A -> bool) (upd : A -> A).

Lemma distinct_keys_inj l x y :
  NoDup (map key l) -> In x l -> In y l -> key x = key y -> x = y.
Proof.
  induction l as [|z l IH]; simpl; [tauto|].
  rewrite NoDup_cons_iff. intros [Hz Hl] [->|Hx] [->|Hy] E; auto.
  - exfalso. apply Hz. rewrite E. now apply in_map.
  - exfalso. apply Hz. rewrite <- E. now apply in_map.
Qed.

(** With distinct keys, the document any key-blind filter finds after an
    update by key is the one it found before, updated when it carries the
    key. *)
Lemma find_one_update_by_key Q upd l k d :
  NoDup (map key l) ->
  (forall x, Q (upd x) = Q x) ->
  find_one Q l = Some d ->
  find_one Q (update_one (key_is key k) upd l) =
    Some (if String.eqb (key d) k then upd d else d).
Proof.
  intros Hnd HQ. unfold find_one, key_is. induction l as [|y l IH]; simpl; [discriminate|].
  apply NoDup_cons_iff in Hnd as [Hy Hl].
  destruct (String.eqb (key y) k) eqn:Ek; simpl.
  - rewrite HQ. destruct (Q y) eqn:Eq.
    + intros [= <-]. now rewrite Ek.
    + intros Hd. rewrite Hd. f_equal.
      destruct (String.eqb (key d) k) eqn:Ed; auto.
      exfalso. apply Hy. apply String.eqb_eq in Ek, Ed.
      rewrite Ek, <- Ed. apply in_map. now apply (find_some _ _ Hd).
  - destruct (Q y) eqn:Eq.
    + intros [= <-]. now rewrite Ek.
    + auto.
Qed.

End DistinctKeys.

(** ** What each handler computes *)

Ltac unfold_handler :=
  unfold bind, ret, raise, lift, fmap,
    users_find_one, users_insert_one, users_update_one, users_count_documents,
    posts_find_one, posts_find, posts_insert_one, posts_update_one,
    posts_count_documents; simpl.

Lemma db_eta s : {| users := users s; posts := posts s |} = s.
Proof. now destruct s. Qed.

Lemma get_current_user_run payload s :
  get_current_user payload s =
    (match sub payload with
     | None => Raise (HTTPException 401 "Invalid token")
     | Some c =>
         if String.eqb c "" then Raise (HTTPException 401 "Invalid token")
         else match find_one (clerk_id_is c) (users s) with
              | None => Raise (HTTPException 404 "User not found")
              | Some u => Ok u
              end
     end, s).
Proof.
  unfold get_current_user. destruct (sub payload) as [c|]; [|reflexivity].
  simpl. destruct (String.eqb c ""); [reflexivity|]. unfold_handler.
  now destruct (find_one (clerk_id_is c) (users s)).
Qed.

Lemma get_current_user_ok payload s u s' :
  get_current_user payload s = (Ok u, s') ->
  s' = s /\ exists c, sub payload = Some c /\ c <> "" /\
                      find_one (clerk_id_is c) (users s) = Some u.
Proof.
  rewrite get_current_user_run. destruct (sub payload) as [c|]; [|discriminate].
  destruct (String.eqb c "") eqn:E; [discriminate|].
  destruct (find_one (clerk_id_is c) (users s)) as [v|] eqn:F; [|discriminate].
  intros [= -> <-]. split; [reflexivity|]. exists c. repeat split; auto.
  intros ->. discriminate.
Qed.

Lemma require_moderator_run user s :
  require_moderator user s =
    (if is_moderator_role (User.role user) then Ok user
     else Raise (HTTPException 403 "Moderator access required"), s).
Proof. unfold require_moderator. now destruct (is_moderator_role _). Qed.

Lemma check_daily_limit_run env user s :
  check_daily_limit env user s =
    if is_day (User.last_post_date user) (today env)
    then (if 3 <=? User.posts_today user
          then Raise (HTTPException 429 "Daily post limit reached (3 posts per day)")
          else Ok user, s)
    else (Ok (set_quota 0 (today env) user),
          {| users := update_one (user_id_is (User.id user)) (set_quota 0 (today env)) (users s);
             posts := posts s |}).
Proof.
  unfold check_daily_limit.
  destruct (is_day (User.last_post_date user) (today env)); unfold_handler.
  - now destruct (3 <=? User.posts_today user).
  - reflexivity.
Qed.

Lemma create_post_run env post_data user s :
  create_post env post_data user s =
    let post := Post_init (uuid4 env 0%nat) (now env) (User.id user)
                          (PostCreate.content post_data) (PostCreate.tag post_data) in
    if is_day (User.last_post_date user) (today env) && (3 <=? User.posts_today user)
    then (Raise (HTTPException 429 "Daily post limit reached (3 posts per day)"), s)
    else (Ok ("Post created successfully", uuid4 env 0%nat),
          {| users := update_one (user_id_is (User.id user)) (inc_posts_today 1)
                        (if is_day (User.last_post_date user) (today env) then users s
                         else update_one (user_id_is (User.id user))
                                (set_quota 0 (today env)) (users s));
             posts := insert_one post (posts s) |}).
Proof.
  unfold create_post, bind at 1. rewrite check_daily_limit_run.
  destruct (is_day (User.last_post_date user) (today env)); simpl.
  - destruct (3 <=? User.posts_today user); reflexivity.
  - reflexivity.
Qed.

Lemma review_post_run env post_id review_data moderator s :
  review_post env post_id review_data moderator s =
    match find_one (post_id_is post_id) (posts s) with
    | None => (Raise (HTTPException 404 "Post not found"), s)
    | Some post =>
        if PostStatus_eqb (Post.status post) PENDING
        then (Ok ("Post " ++ PostStatus_value (PostUpdate.status review_data)),
              {| users := users s;
                 posts := update_one (post_id_is post_id)
                            (set_review (PostUpdate.status review_data) (now env) (User.id moderator))
                            (posts s) |})
        else (Raise (HTTPException 400 "Post already reviewed"), s)
    end.
Proof.
  unfold review_post. unfold_handler.
  destruct (find_one (post_id_is post_id) (posts s)) as [post|]; [|reflexivity].
  now destruct (PostStatus_eqb (Post.status post) PENDING).
Qed.

(** The loop only reads the store and never raises; it fills the key of
    every dictionary and leaves the stored fields as they were. *)
Lemma add_user_email_run placeholder posts s :
  exists posts',
    add_user_email placeholder posts s = (Ok posts', s) /\
    map fields posts' = map fields posts /\
    map user_email posts' =
      map (fun d => Some match find_one (user_id_is (Post.user_id (fields d))) (users s) with
                         | Some user => User.email user
                         | None => placeholder
                         end) posts.
Proof.
  induction posts as [|post rest (rest' & Hrun & Hf & He)]; simpl.
  - exists []. now repeat split.
  - eexists. unfold_handler. rewrite Hrun. simpl. split; [reflexivity|]. simpl.
    rewrite Hf, He. now split.
Qed.

Lemma map_fields_from_store l : map fields (map from_store l) = l.
Proof. rewrite map_map. simpl. apply map_id. Qed.

Lemma get_pending_posts_run moderator s :
  get_pending_posts moderator s =
    (Ok (firstn 100 (sort Post.created_at ASCENDING (filter (status_is PENDING) (posts s)))), s).
Proof.
  unfold get_pending_posts, bind at 1, posts_find. unfold bind.
  destruct (add_user_email_run "Unknown"
              (map from_store (to_list 100 (sort Post.created_at ASCENDING
                 (filter (status_is PENDING) (posts s))))) s) as (d & -> & Hf & _).
  unfold ret. change (map Post_of_dict d) with (map fields d).
  now rewrite Hf, map_fields_from_store.
Qed.

Lemma get_approved_posts_run moderator s :
  get_approved_posts moderator s =
    (Ok (firstn 100 (sort Post.created_at DESCENDING (filter (status_is APPROVED) (posts s)))), s).
Proof.
  unfold get_approved_posts. unfold_handler.
  change (map Post_of_dict) with (map fields). now rewrite map_fields_from_store.
Qed.

Lemma get_daily_feed_run env user s :
  get_daily_feed env user s =
    (Ok (firstn 3 (sort Post.created_at DESCENDING (filter (status_is APPROVED) (posts s)))), s).
Proof.
  unfold get_daily_feed, bind at 1, posts_find. unfold bind.
  destruct (add_user_email_run "Anonymous"
              (map from_store (to_list 3 (limit 3 (sort Post.created_at DESCENDING
                 (filter (status_is APPROVED) (posts s)))))) s) as (d & -> & Hf & _).
  unfold ret. change (map Post_of_dict d) with (map fields d).
  rewrite Hf, map_fields_from_store. unfold to_list, limit.
  now rewrite firstn_firstn.
Qed.

Lemma sync_user_run env payload s :
  sync_user env payload s =
    match sub payload, email payload with
    | Some c, Some e =>
        if String.eqb c "" || String.eqb e ""
        then (Raise (HTTPException 400 "Invalid token payload"), s)
        else match find_one (clerk_id_is c) (users s) with
             | Some user => (Ok ("User exists", user), s)
             | None =>
                 let new_user := User_init (uuid4 env 0%nat) (now env) c e NEW_USER in
                 (Ok ("User created", new_user),
                  {| users := insert_one new_user (users s); posts := posts s |})
             end
    | _, _ => (Raise (HTTPException 400 "Invalid token payload"), s)
    end.
Proof.
  unfold sync_user. destruct (sub payload) as [c|], (email payload) as [e|]; simpl;
    try reflexivity.
  - destruct (String.eqb c ""), (String.eqb e ""); simpl; try reflexivity.
    unfold_handler. now destruct (find_one (clerk_id_is c) (users s)).
  - now destruct (String.eqb c "").
Qed.

Lemma register_user_run env user_data s :
  register_user env user_data s =
    match find_one (email_is (UserCreate.email user_data)) (users s) with
    | Some _ => (Ok ("User already exists", None), s)
    | None =>
        let role := match UserCreate.invite_code user_data with
                    | Some code => if String.eqb code "aieventuallylose"
                                   then MODERATOR else NEW_USER
                    | None => NEW_USER
                    end in
        (Ok ("User registered successfully", Some (UserRole_value role)),
         {| users := insert_one (User_init (uuid4 env 1%nat) (now env)
                                  (uuid4 env 0%nat) (UserCreate.email user_data) role) (users s);
            posts := posts s |})
    end.
Proof.
  unfold register_user. unfold_handler.
  now destruct (find_one (email_is (UserCreate.email user_data)) (users s)).
Qed.

(** *** The dependency chain of a route *)

Lemma bind_current_user {B} payload (k : User.t -> M B) s :
  (user <- get_current_user payload ;; k user) s =
    match caller payload s with
    | Ok u => k u s
    | Raise e => (Raise e, s)
    end.
Proof.
  unfold bind, caller. rewrite get_current_user_run. simpl.
  now destruct (match sub payload with Some _ => _ | None => _ end).
Qed.

Lemma bind_moderator {B} user (k : User.t -> M B) s :
  (moderator <- require_moderator user ;; k moderator) s =
    if is_moderator_role (User.role user) then k user s
    else (Raise (HTTPException 403 "Moderator access required"), s).
Proof.
  unfold bind. rewrite require_moderator_run. now destruct (is_moderator_role _).
Qed.

Lemma bind_lift {A B} (r : result A) (k : A -> M B) s :
  (x <- lift r ;; k x) s =
    match r with
    | Ok x => k x s
    | Raise e => (Raise e, s)
    end.
Proof. unfold bind, lift. now destruct r. Qed.

Lemma fmap_run {A B} (f : A -> B) (m : M A) s :
  fmap f m s =
    match m s with
    | (Ok a, s') => (Ok (f a), s')
    | (Raise e, s') => (Raise e, s')
    end.
Proof. unfold fmap, bind, ret. now destruct (m s) as [[a|e] s']. Qed.

Lemma caller_ok payload s u :
  caller payload s = Ok u ->
  exists c, sub payload = Some c /\ c <> "" /\
            find_one (clerk_id_is c) (users s) = Some u.
Proof.
  unfold caller. destruct (get_current_user payload s) as [r s'] eqn:E. simpl.
  intros ->. now apply get_current_user_ok in E as [_ H].
Qed.

Lemma caller_resolves payload s c u :
  sub payload = Some c -> c <> "" ->
  find_one (clerk_id_is c) (users s) = Some u ->
  caller payload s = Ok u.
Proof.
  intros Hs Hc Hf. unfold caller. rewrite get_current_user_run, Hs, Hf. simpl.
  destruct (String.eqb_spec c ""); [contradiction | reflexivity].
Qed.

Ltac route :=
  unfold serve;
  repeat first [ rewrite bind_current_user | rewrite bind_moderator
               | rewrite bind_lift | rewrite fmap_run ].

Lemma serve_POST_posts env payload body s :
  serve env (POST_posts payload body) s =
    match caller payload s with
    | Raise e => (Raise e, s)
    | Ok user =>
        match validate_PostCreate body with
        | Raise e => (Raise e, s)
        | Ok post_data =>
            match create_post env post_data user s with
            | (Ok r, s') => (Ok (Created (fst r) (snd r)), s')
            | (Raise e, s') => (Raise e, s')
            end
        end
    end.
Proof.
  route. destruct (caller payload s); [|reflexivity].
  rewrite bind_lift. destruct (validate_PostCreate body); [|reflexivity].
  now rewrite fmap_run.
Qed.

Lemma serve_PUT_posts_review env payload post_id body s :
  serve env (PUT_posts_review payload post_id body) s =
    match caller payload s with
    | Raise e => (Raise e, s)
    | Ok user =>
        if is_moderator_role (User.role user)
        then match validate_PostUpdate body with
             | Raise e => (Raise e, s)
             | Ok review_data =>
                 match review_post env post_id review_data user s with
                 | (Ok m, s') => (Ok (Message m), s')
                 | (Raise e, s') => (Raise e, s')
                 end
             end
        else (Raise (HTTPException 403 "Moderator access required"), s)
    end.
Proof.
  route. destruct (caller payload s); [|reflexivity].
  rewrite bind_moderator. destruct (is_moderator_role _); [|reflexivity].
  rewrite bind_lift. destruct (validate_PostUpdate body); [|reflexivity].
  now rewrite fmap_run.
Qed.

Lemma serve_GET_feed env payload s :
  serve env (GET_feed payload) s =
    match caller payload s with
    | Raise e => (Raise e, s)
    | Ok user =>
        (Ok (Posts (firstn 3 (sort Post.created_at DESCENDING
                                (filter (status_is APPROVED) (posts s))))), s)
    end.
Proof.
  route. destruct (caller payload s); [|reflexivity].
  now rewrite fmap_run, get_daily_feed_run.
Qed.

Lemma serve_POST_posts_resonate env payload post_id s :
  serve env (POST_posts_resonate payload post_id) s =
    match caller payload s with
    | Raise e => (Raise e, s)
    | Ok user =>
        (Ok (Message "Resonated with post"),
         {| users := users s;
            posts := update_one (post_id_is post_id) (inc_resonates 1) (posts s) |})
    end.
Proof. route. now destruct (caller payload s). Qed.

Lemma serve_POST_posts_cherish env payload post_id s :
  serve env (POST_posts_cherish payload post_id) s =
    match caller payload s with
    | Raise e => (Raise e, s)
    | Ok user =>
        (Ok (Message "Cherished post"),
         {| users := users s;
            posts := update_one (post_id_is post_id) (inc_cherishes 1) (posts s) |})
    end.
Proof. route. now destruct (caller payload s). Qed.

(** The routes that only read leave the store as it is. *)
Lemma serve_reads env req s :
  match req with
  | GET_me _ | GET_posts_pending _ | GET_posts_approved _ | GET_feed _ | GET_stats _ =>
      snd (serve env req s) = s
  | _ => True
  end.
Proof.
  destruct req; auto; route; destruct (caller payload s); try reflexivity.
  - rewrite bind_moderator. destruct (is_moderator_role _); [|reflexivity].
    now rewrite fmap_run, get_pending_posts_run.
  - rewrite bind_moderator. destruct (is_moderator_role _); [|reflexivity].
    now rewrite fmap_run, get_approved_posts_run.
  - now rewrite fmap_run, get_daily_feed_run.
  - rewrite bind_moderator. destruct (is_moderator_role _); [|reflexivity].
    reflexivity.
Qed.

(** ** One request and the user documents *)

Lemma set_quota_keeps_clerk c n d x : clerk_id_is c (set_quota n d x) = clerk_id_is c x.
Proof. reflexivity. Qed.

Lemma inc_posts_today_keeps_clerk c k x :
  clerk_id_is c (inc_posts_today k x) = clerk_id_is c x.
Proof. reflexivity. Qed.

Lemma wf_db_update s i upd :
  (forall x, User.id (upd x) = User.id x) ->
  wf_db s ->
  wf_db {| users := update_one (user_id_is i) upd (users s); posts := posts s |}.
Proof. unfold wf_db. simpl. intros H. now rewrite update_one_map. Qed.

Lemma wf_db_insert s u p :
  ~ In (User.id u) (map User.id (users s)) ->
  wf_db s ->
  wf_db {| users := insert_one u (users s); posts := p |}.
Proof.
  unfold wf_db, insert_one. simpl. intros Hfresh Hnd. rewrite map_app. simpl.
  eapply Permutation_NoDup; [apply Permutation_cons_append|].
  now constructor.
Qed.

(** Two subjects that resolve to documents with one identifier are one. *)
Lemma same_id_same_subject s c c' u v :
  wf_db s ->
  find_one (clerk_id_is c) (users s) = Some u ->
  find_one (clerk_id_is c') (users s) = Some v ->
  User.id v = User.id u -> c' = c.
Proof.
  intros Hwf Hu Hv E. apply find_one_some in Hu as [Iu Pu]. apply find_one_some in Hv as [Iv Pv].
  assert (v = u) as -> by (eapply distinct_keys_inj; eauto).
  apply String.eqb_eq in Pu, Pv. congruence.
Qed.

Lemma quota_used_after_create env u :
  quota_used (today env) (after_create env u) = quota_used (today env) u + 1.
Proof.
  unfold quota_used, after_create.
  destruct (is_day (User.last_post_date u) (today env)) eqn:E; simpl.
  - now rewrite E.
  - now rewrite String.eqb_refl.
Qed.

Lemma after_create_is_day env u :
  is_day (User.last_post_date (after_create env u)) (today env) = true.
Proof.
  unfold after_create.
  destruct (is_day (User.last_post_date u) (today env)) eqn:E; simpl; auto.
  apply String.eqb_refl.
Qed.

(** The users collection after a successful [create_post] by [v], and the
    document a subject [c] then resolves to. *)
Lemma find_clerk_after_create env s c u v :
  wf_db s ->
  find_one (clerk_id_is c) (users s) = Some u ->
  find_one (clerk_id_is c)
    (update_one (user_id_is (User.id v)) (inc_posts_today 1)
       (if is_day (User.last_post_date v) (today env) then users s
        else update_one (user_id_is (User.id v)) (set_quota 0 (today env)) (users s))) =
    Some (if String.eqb (User.id u) (User.id v)
          then inc_posts_today 1
                 (if is_day (User.last_post_date v) (today env) then u
                  else set_quota 0 (today env) u)
          else u).
Proof.
  intros Hwf Hu. unfold user_id_is.
  destruct (is_day (User.last_post_date v) (today env)).
  - now rewrite (find_one_update_by_key User.id _ _ (users s) _ u Hwf
                   (inc_posts_today_keeps_clerk c 1) Hu).
  - assert (Hwf' : NoDup (map User.id
              (update_one (key_is User.id (User.id v)) (set_quota 0 (today env)) (users s)))).
    { now rewrite update_one_map. }
    pose proof (find_one_update_by_key User.id _ _ (users s) (User.id v) u Hwf
                  (set_quota_keeps_clerk c 0 (today env)) Hu) as H1.
    rewrite (find_one_update_by_key User.id _ _ _ (User.id v) _ Hwf'
               (inc_posts_today_keeps_clerk c 1) H1).
    destruct (String.eqb (User.id u) (User.id v)) eqn:E; simpl; now rewrite E.
Qed.

(** The effect of any one request on the document a subject resolves to:
    it is replaced by [after_create] when the request is a creation by that
    subject that succeeds, and is left alone by everything else. *)
Lemma serve_user_step env req s c u :
  wf_db s -> fresh_ids env req s ->
  find_one (clerk_id_is c) (users s) = Some u ->
  let out := fst (serve env req s) in
  let s' := snd (serve env req s) in
  let hit := creates_by c req && is_ok out in
  wf_db s' /\
  find_one (clerk_id_is c) (users s') = Some (if hit then after_create env u else u) /\
  (hit = true -> quota_used (today env) u < 3).
Proof.
  intros Hwf Hfresh Hu.
  pose proof (serve_reads env req s) as Hreads.
  destruct req; simpl creates_by; cbv zeta;
    try (rewrite Hreads; simpl; repeat split; auto; discriminate).
  - (* register *)
    unfold serve. rewrite fmap_run, register_user_run.
    destruct (find_one (email_is (UserCreate.email user_data)) (users s)); simpl.
    + repeat split; auto; discriminate.
    + repeat split; try discriminate.
      * now apply wf_db_insert.
      * now apply find_one_insert_one_some.
  - (* sync *)
    unfold serve. rewrite fmap_run, sync_user_run.
    destruct (sub payload) as [c'|], (email payload) as [e|]; simpl;
      try (repeat split; auto; discriminate).
    destruct (String.eqb c' "" || String.eqb e ""); simpl;
      [repeat split; auto; discriminate|].
    destruct (find_one (clerk_id_is c') (users s)); simpl.
    + repeat split; auto; discriminate.
    + repeat split; try discriminate.
      * now apply wf_db_insert.
      * now apply find_one_insert_one_some.
  - (* create *)
    rewrite serve_POST_posts.
    destruct (caller payload s) as [v|e] eqn:Hc; simpl;
      [|rewrite andb_false_r; repeat split; auto; discriminate].
    destruct (validate_PostCreate body) as [pd|e]; simpl;
      [|rewrite andb_false_r; repeat split; auto; discriminate].
    rewrite create_post_run. cbv zeta.
    destruct (is_day (User.last_post_date v) (today env) && (3 <=? User.posts_today v))
      eqn:Hfull; simpl;
      [rewrite andb_false_r; repeat split; auto; discriminate|].
    apply caller_ok in Hc as (c' & Hs & Hne & Hv). rewrite Hs, andb_true_r.
    split; [|split].
    + destruct (is_day (User.last_post_date v) (today env)).
      * now apply wf_db_update.
      * apply (wf_db_update {| users := _; posts := posts s |}); auto.
        now apply wf_db_update.
    + rewrite (find_clerk_after_create env s c u v Hwf Hu).
      destruct (String.eqb_spec c' c) as [->|Hcc].
      * assert (v = u) as -> by congruence. now rewrite String.eqb_refl.
      * destruct (String.eqb_spec (User.id u) (User.id v)) as [E|E]; auto.
        exfalso. apply Hcc. eapply same_id_same_subject; eauto.
    + destruct (String.eqb_spec c' c) as [->|Hcc]; [|discriminate]. intros _.
      assert (v = u) as -> by congruence. unfold quota_used.
      destruct (is_day (User.last_post_date u) (today env)); simpl in Hfull; lia.
  - (* review *)
    rewrite serve_PUT_posts_review.
    destruct (caller payload s); simpl; [|repeat split; auto; discriminate].
    destruct (is_moderator_role _); simpl; [|repeat split; auto; discriminate].
    destruct (validate_PostUpdate body); simpl; [|repeat split; auto; discriminate].
    rewrite review_post_run. destruct (find_one _ (posts s)); simpl;
      [|repeat split; auto; discriminate].
    destruct (PostStatus_eqb _ _); simpl; repeat split; auto; discriminate.
  - rewrite serve_POST_posts_resonate.
    destruct (caller payload s); simpl; repeat split; auto; discriminate.
  - rewrite serve_POST_posts_cherish.
    destruct (caller payload s); simpl; repeat split; auto; discriminate.
Qed.

(** ** Runs of one calendar day and the quota of one user *)

Lemma opt_date_eqb_refl x : opt_date_eqb x x = true.
Proof. destruct x as [[d|]|]; simpl; auto. apply String.eqb_refl. Qed.

Lemma rollover_at_create env u :
  opt_date_eqb (Some (User.last_post_date u))
               (Some (User.last_post_date (after_create env u))) =
    is_day (User.last_post_date u) (today env).
Proof.
  unfold after_create.
  destruct (is_day (User.last_post_date u) (today env)) eqn:E; simpl.
  - apply (opt_date_eqb_refl (Some _)).
  - destruct (User.last_post_date u); simpl in *; auto.
Qed.

Lemma final_cons env req rest s :
  final ((env, req) :: rest) s = final rest (snd (serve env req s)).
Proof.
  unfold final. simpl. destruct (serve env req s) as [out s']. simpl.
  now destruct (serve_all rest s').
Qed.

Lemma created_by_cons c env req rest s :
  created_by c ((env, req) :: rest) s =
    (if creates_by c req && is_ok (fst (serve env req s)) then 1 else 0)
    + created_by c rest (snd (serve env req s)).
Proof. simpl. now destruct (serve env req s). Qed.

Lemma run_user c day reqs : forall s u,
  wf_db s -> fresh_run reqs s -> same_day day reqs ->
  find_one (clerk_id_is c) (users s) = Some u ->
  exists u',
    find_one (clerk_id_is c) (users (final reqs s)) = Some u' /\
    wf_db (final reqs s) /\
    0 <= created_by c reqs s /\
    quota_used day u' = quota_used day u + created_by c reqs s /\
    (quota_used day u <= 3 -> quota_used day u' <= 3) /\
    is_day (User.last_post_date u') day =
      is_day (User.last_post_date u) day || (0 <? created_by c reqs s) /\
    rollovers c reqs s =
      if is_day (User.last_post_date u) day || (created_by c reqs s <=? 0)
      then 0%nat else 1%nat.
Proof.
  induction reqs as [|[env req] rest IH]; intros s u Hwf Hfresh Hday Hu.
  - exists u. unfold final. simpl. rewrite orb_false_r, orb_true_r.
    repeat split; auto; lia.
  - destruct Hfresh as [Hfr Hfresh]. unfold same_day in Hday.
    apply Forall_cons_iff in Hday as [Htoday Hday']. simpl in Htoday. subst day.
    destruct (serve_user_step env req s c u Hwf Hfr Hu) as (Hwf1 & Hu1 & Hlt).
    set (hit := creates_by c req && is_ok (fst (serve env req s))) in *.
    set (s1 := snd (serve env req s)) in *.
    destruct (IH s1 _ Hwf1 Hfresh Hday' Hu1) as (u' & Hu' & Hwf' & Hn & Hq & Hle & Hd & Hr).
    exists u'. rewrite final_cons, created_by_cons. fold hit s1.
    simpl rollovers. fold s1. unfold stored_date. rewrite Hu, Hu1. simpl option_map.
    split; [exact Hu'|]. split; [exact Hwf'|].
    destruct hit.
    + pose proof (quota_used_after_create env u) as Hq1.
      pose proof (after_create_is_day env u) as Hd1.
      pose proof (rollover_at_create env u) as Hr1.
      specialize (Hlt eq_refl). rewrite Hd1 in Hd, Hr. simpl in Hd, Hr.
      rewrite Hr, Hr1, Hd. rewrite Hq, Hq1 in *.
      assert ((0 <? 1 + created_by c rest s1) = true) as -> by (apply Z.ltb_lt; lia).
      assert ((1 + created_by c rest s1 <=? 0) = false) as -> by (apply Z.leb_gt; lia).
      rewrite !orb_true_r, !orb_false_r.
      repeat split; try lia.
    + rewrite (opt_date_eqb_refl (Some _)), !Z.add_0_l. simpl.
      repeat split; auto.
Qed.

(** ** One request and the post documents *)

(** When every position of [l] holds in [l'] a document related to it by a
    relation that keeps the filter's verdict, [find_one] selects the same
    position in both. *)
Lemma find_one_pointwise {A} (P : A -> bool) (R : A -> A -> Prop) :
  (forall x y, R x y -> P y = P x) ->
  forall l l' d,
    (forall n x, nth_error l n = Some x -> exists y, nth_error l' n = Some y /\ R x y) ->
    find_one P l = Some d ->
    exists d', find_one P l' = Some d' /\ R d d'.
Proof.
  intros HR. unfold find_one. induction l as [|x l IH]; intros l' d Hpt; simpl; [discriminate|].
  destruct (Hpt 0%nat x eq_refl) as (y & Hy & Rxy).
  destruct l' as [|y' l']; simpl in Hy; [discriminate|]. injection Hy as ->.
  simpl. rewrite (HR _ _ Rxy). destruct (P x).
  - intros [= <-]. now exists y.
  - apply IH. intros n z Hz. exact (Hpt (S n) z Hz).
Qed.

(** One request keeps every post document in its place with its identifier,
    and changes its status only if the document was pending and the request
    is a review, of that identifier, that succeeds; the new status is then
    the one the review names. *)
Lemma serve_post_step env req s n p :
  nth_error (posts s) n = Some p ->
  exists p',
    nth_error (posts (snd (serve env req s))) n = Some p' /\
    Post.id p' = Post.id p /\
    (Post.status p' = Post.status p \/
     (Post.status p = PENDING /\
      find_one (post_id_is (Post.id p)) (posts s) = Some p /\
      exists payload body review_data,
        req = PUT_posts_review payload (Post.id p) body /\
        validate_PostUpdate body = Ok review_data /\
        is_ok (fst (serve env req s)) = true /\
        Post.status p' = PostUpdate.status review_data)).
Proof.
  intros Hn. pose proof (serve_reads env req s) as Hreads.
  destruct req; try (rewrite Hreads; exists p; now auto).
  - unfold serve. rewrite fmap_run, register_user_run.
    destruct (find_one _ (users s)); simpl; exists p; auto.
  - unfold serve. rewrite fmap_run, sync_user_run.
    destruct (sub payload) as [c|], (email payload) as [e|]; simpl;
      try (exists p; now auto).
    destruct (String.eqb c "" || String.eqb e ""); simpl; try (exists p; now auto).
    destruct (find_one _ (users s)); simpl; exists p; auto.
  - rewrite serve_POST_posts. destruct (caller payload s); simpl; try (exists p; now auto).
    destruct (validate_PostCreate body); simpl; try (exists p; now auto).
    rewrite create_post_run. cbv zeta. destruct (_ && _); simpl; try (exists p; now auto).
    exists p. split; auto. now apply nth_error_insert_one.
  - rewrite serve_PUT_posts_review.
    destruct (caller payload s) as [u|] eqn:Hc; simpl; try (exists p; now auto).
    destruct (is_moderator_role _) eqn:Hm; simpl; try (exists p; now auto).
    destruct (validate_PostUpdate body) as [rd|] eqn:Hv; simpl; try (exists p; now auto).
    rewrite review_post_run.
    destruct (find_one (post_id_is post_id) (posts s)) as [q|] eqn:Hq; simpl;
      try (exists p; now auto).
    destruct (PostStatus_eqb (Post.status q) PENDING) eqn:Hst; simpl;
      try (exists p; now auto).
    destruct (nth_error_update_one (post_id_is post_id)
                (set_review (PostUpdate.status rd) (now env) (User.id u)) _ _ _ Hn) as [H|[Hf H]].
    + exists p. auto.
    + assert (q = p) as -> by congruence.
      apply find_one_some in Hf as [_ Hid]. apply String.eqb_eq in Hid. subst post_id.
      eexists. split; [exact H|]. split; [reflexivity|]. right.
      split; [now destruct (Post.status p)|]. split; [exact Hq|].
      exists payload, body, rd. now repeat split.
  - rewrite serve_POST_posts_resonate. destruct (caller payload s); simpl;
      try (exists p; now auto).
    destruct (nth_error_update_one (post_id_is post_id) (inc_resonates 1) _ _ _ Hn)
      as [H|[_ H]]; eexists; (split; [exact H|]); auto.
  - rewrite serve_POST_posts_cherish. destruct (caller payload s); simpl;
      try (exists p; now auto).
    destruct (nth_error_update_one (post_id_is post_id) (inc_cherishes 1) _ _ _ Hn)
      as [H|[_ H]]; eexists; (split; [exact H|]); auto.
Qed.

Lemma run_post_pointwise reqs : forall s n p,
  nth_error (posts s) n = Some p ->
  exists p',
    nth_error (posts (final reqs s)) n = Some p' /\
    Post.id p' = Post.id p /\
    (Post.status p <> PENDING -> Post.status p' = Post.status p).
Proof.
  induction reqs as [|[env req] rest IH]; intros s n p Hn.
  - exists p. unfold final. simpl. auto.
  - destruct (serve_post_step env req s n p Hn) as (p1 & Hn1 & Hid1 & Hst1).
    destruct (IH _ _ _ Hn1) as (p' & Hn' & Hid' & Hst').
    exists p'. rewrite final_cons. split; [exact Hn'|]. split; [congruence|].
    intros Hp. destruct Hst1 as [E|[E _]]; [|contradiction].
    rewrite <- E. apply Hst'. congruence.
Qed.

Lemma run_post_by_id reqs s post_id p :
  find_one (post_id_is post_id) (posts s) = Some p ->
  exists p',
    find_one (post_id_is post_id) (posts (final reqs s)) = Some p' /\
    (Post.status p <> PENDING -> Post.status p' = Post.status p).
Proof.
  intros Hf.
  destruct (find_one_pointwise (post_id_is post_id)
              (fun x y => Post.id y = Post.id x /\
                          (Post.status x <> PENDING -> Post.status y = Post.status x)))
    with (l := posts s) (l' := posts (final reqs s)) (d := p) as (p' & Hp' & _ & Hst); auto.
  - intros x y [E _]. unfold post_id_is, key_is. now rewrite E.
  - intros n x Hx. apply run_post_pointwise, Hx.
  - now exists p'.
Qed.

(** ** Sorting *)

Section Sorting.
Context {A : Type} (key : A -> Z) (dir : direction).
Local Abbreviation ordered := (ordered key dir).

Lemma ordered_trans a b c : ordered a b -> ordered b c -> ordered a c.
Proof.
  unfold ordered, in_order. destruct dir; rewrite !Z.leb_le; lia.
Qed.

Lemma not_ordered_flip a b : in_order dir (key a) (key b) = false -> ordered b a.
Proof.
  unfold ordered, in_order. destruct dir; rewrite Z.leb_gt, Z.leb_le; lia.
Qed.

Lemma sort_insert_perm x l : Permutation (sort_insert key dir x l) (x :: l).
Proof.
  induction l as [|y l IH]; simpl; auto.
  destruct (in_order dir (key x) (key y)); auto.
  rewrite IH. apply perm_swap.
Qed.

Lemma sort_perm l : Permutation (sort key dir l) l.
Proof.
  induction l as [|x l IH]; simpl; auto.
  rewrite sort_insert_perm. now constructor.
Qed.

Lemma sort_insert_sorted x l :
  StronglySorted ordered l -> StronglySorted ordered (sort_insert key dir x l).
Proof.
  induction 1 as [|y l Hl IH Hy]; simpl.
  - repeat constructor.
  - destruct (in_order dir (key x) (key y)) eqn:E.
    + constructor; [now constructor|]. constructor; [exact E|].
      eapply Forall_impl; [|exact Hy]. intros z. now apply ordered_trans.
    + constructor; [exact IH|].
      apply (Permutation_Forall (x := x :: l)).
      * symmetry. apply sort_insert_perm.
      * constructor; [now apply not_ordered_flip | exact Hy].
Qed.

Lemma sort_sorted l : StronglySorted ordered (sort key dir l).
Proof.
  induction l as [|x l IH]; simpl; [constructor | now apply sort_insert_sorted].
Qed.

Lemma firstn_sorted n l :
  StronglySorted ordered l -> StronglySorted ordered (firstn n l).
Proof.
  intros H. revert n. induction H as [|y l Hl IH Hy]; intros [|n]; simpl;
    try constructor; auto.
  rewrite Forall_forall in *. intros z Hz. apply Hy. eapply firstn_In, Hz.
Qed.
End Sorting.

Lemma firstn_incl_Forall {A} (P : A -> Prop) n l : Forall P l -> Forall P (firstn n l).
Proof.
  rewrite !Forall_forall. intros H z Hz. apply H. eapply firstn_In, Hz.
Qed.

Lemma sort_filter_Forall {A} (key : A -> Z) dir (f : A -> bool) l :
  Forall (fun x => f x = true) (sort key dir (filter f l)).
Proof.
  apply (Permutation_Forall (x := filter f l)).
  - symmetry. apply sort_perm.
  - rewrite Forall_forall. intros x Hx. now apply filter_In in Hx.
Qed.

(** ** The daily quota *)

Lemma is_day_true d day : is_day d day = true -> d = Some day.
Proof.
  destruct d as [x|]; simpl; [|discriminate]. intros H. apply String.eqb_eq in H. now subst.
Qed.


Lemma db0_wf : wf_db db0.
Proof.
  unfold wf_db. simpl. repeat constructor; simpl; intuition discriminate.
Defined.


(** ** The moderation workflow *)

Lemma not_pending st : st <> PENDING -> PostStatus_eqb st PENDING = false.
Proof. destruct st; auto. contradiction. Qed.

Lemma is_pending st : st = PENDING -> PostStatus_eqb st PENDING = true.
Proof. now intros ->. Qed.




Lemma is_moderator_role_false r :
  is_moderator_role r = false <-> r <> MODERATOR /\ r <> SEED_USER.
Proof.
  destruct r; simpl; split; try discriminate; try tauto.
  intros _. split; discriminate.
Qed.

(** C3.  For a caller that resolves to a user: the review fails with 403 when
    the user's role is neither moderator nor seed_user; for a moderator or
    seed_user with a valid body it fails with 404 when no post has the given
    identifier and with 400 when the post is not pending; otherwise it
    succeeds and the post then carries the new status, the instant of the
    review and the identifier of the reviewing user, all else unchanged. *)
Theorem review_post_outcomes env payload post_id body s user :
  caller payload s = Ok user ->
  let out := serve env (PUT_posts_review payload post_id body) s in
  (User.role user <> MODERATOR -> User.role user <> SEED_USER ->
   out = (Raise (HTTPException 403 "Moderator access required"), s)) /\
  (forall review_data,
     User.role user = MODERATOR \/ User.role user = SEED_USER ->
     validate_PostUpdate body = Ok review_data ->
     (find_one (post_id_is post_id) (posts s) = None ->
      out = (Raise (HTTPException 404 "Post not found"), s)) /\
     (forall post,
        find_one (post_id_is post_id) (posts s) = Some post ->
        Post.status post <> PENDING ->
        out = (Raise (HTTPException 400 "Post already reviewed"), s)) /\
     (forall post,
        find_one (post_id_is post_id) (posts s) = Some post ->
        Post.status post = PENDING ->
        exists post',
          fst out = Ok (Message ("Post " ++ PostStatus_value (PostUpdate.status review_data))) /\
          users (snd out) = users s /\
          posts (snd out) =
            update_one (post_id_is post_id) (fun _ => post') (posts s) /\
          find_one (post_id_is post_id) (posts (snd out)) = Some post' /\
          Post.status post' = PostUpdate.status review_data /\
          Post.reviewed_at post' = Some (now env) /\
          Post.reviewer_id post' = Some (User.id user) /\
          post' = set_review (PostUpdate.status review_data) (now env) (User.id user) post)).
Proof.
  intros Hc. cbv zeta. rewrite serve_PUT_posts_review, Hc. split.
  - intros H1 H2. now rewrite (proj2 (is_moderator_role_false _) (conj H1 H2)).
  - intros rd Hrole Hv.
    assert (is_moderator_role (User.role user) = true) as ->
      by (destruct Hrole as [-> | ->]; reflexivity).
    rewrite Hv, review_post_run. split; [|split].
    + now intros ->.
    + intros post -> Hst. now rewrite (not_pending _ Hst).
    + intros post Hf Hst. rewrite Hf, (is_pending _ Hst). simpl.
      eexists. split; [reflexivity|]. split; [reflexivity|]. split; [|split].
      2:{ rewrite find_one_update_one_same by reflexivity. rewrite Hf. reflexivity. }
      2:{ repeat split. }
      clear Hst. revert Hf. unfold find_one. induction (posts s) as [|q l IH]; simpl; auto.
      destruct (post_id_is post_id q).
      * now intros [= ->].
      * intros H. now rewrite IH.
Qed.

Lemma review_post_outcomes_witness :
  serve (env_at "2024-05-02" 200 "n1")
        (PUT_posts_review as_alice "p1" (a_review "approved")) db0 =
    (Raise (HTTPException 403 "Moderator access required"), db0) /\
  serve (env_at "2024-05-02" 200 "n1")
        (PUT_posts_review as_mona "p9" (a_review "approved")) db0 =
    (Raise (HTTPException 404 "Post not found"), db0) /\
  serve (env_at "2024-05-02" 200 "n1")
        (PUT_posts_review as_mona "p2" (a_review "rejected")) db0 =
    (Raise (HTTPException 400 "Post already reviewed"), db0) /\
  exists post',
    find_one (post_id_is "p1")
      (posts (snd (serve (env_at "2024-05-02" 200 "n1")
                     (PUT_posts_review as_sam "p1" (a_review "approved")) db0))) = Some post' /\
    Post.status post' = APPROVED /\
    Post.reviewed_at post' = Some 200 /\
    Post.reviewer_id post' = Some "u-sam".
Proof.
  split; [|split; [|split]].
  - apply (review_post_outcomes (env_at "2024-05-02" 200 "n1") as_alice "p1"
             (a_review "approved") db0 alice eq_refl); discriminate.
  - eapply (review_post_outcomes (env_at "2024-05-02" 200 "n1") as_mona "p9"
              (a_review "approved") db0 mona eq_refl); [now left | reflexivity | reflexivity].
  - eapply (review_post_outcomes (env_at "2024-05-02" 200 "n1") as_mona "p2"
              (a_review "rejected") db0 mona eq_refl);
      [now left | reflexivity | reflexivity | discriminate].
  - destruct (review_post_outcomes (env_at "2024-05-02" 200 "n1") as_sam "p1"
                (a_review "approved") db0 sam eq_refl) as (_ & H).
    destruct (H {| PostUpdate.status := APPROVED; PostUpdate.reviewer_id := "anyone" |}
                (or_intror eq_refl) eq_refl) as (_ & _ & Hok).
    destruct (Hok post1 eq_refl eq_refl) as (post' & _ & _ & _ & Hf & Hs & Ht & Hr & _).
    exists post'. auto.
Defined.

(** ** Day rollover *)

Lemma is_day_false d day : is_day d day = false <-> d <> Some day.
Proof.
  destruct d as [x|]; simpl.
  - rewrite String.eqb_neq. split; congruence.
  - split; [discriminate | reflexivity].
Qed.



(** ** Listings and the feed *)

Lemma sorted_ascending l :
  StronglySorted (ordered Post.created_at ASCENDING) l -> ascending l.
Proof.
  unfold ascending. induction 1 as [|a l _ IH Ha]; constructor; auto.
  eapply Forall_impl; [|exact Ha]. intros b. unfold ordered. simpl. apply Z.leb_le.
Qed.

Lemma sorted_descending l :
  StronglySorted (ordered Post.created_at DESCENDING) l -> descending l.
Proof.
  unfold descending. induction 1 as [|a l _ IH Ha]; constructor; auto.
  eapply Forall_impl; [|exact Ha]. intros b. unfold ordered. simpl. apply Z.leb_le.
Qed.

Lemma status_is_true st p : status_is st p = true -> Post.status p = st.
Proof. unfold status_is. now destruct (Post.status p), st. Qed.

(** What the feed does deliver: for a caller that resolves to a user it
    never fails, whatever user documents exist, and answers with at most 3
    posts, each approved and each a stored post. *)
Lemma feed_is_bounded_and_approved env payload s user :
  caller payload s = Ok user ->
  exists l,
    serve env (GET_feed payload) s = (Ok (Posts l), s) /\
    (length l <= 3)%nat /\
    Forall (fun p => Post.status p = APPROVED /\ In p (posts s)) l.
Proof.
  intros Hc. rewrite serve_GET_feed, Hc. eexists. split; [reflexivity|]. split.
  - rewrite length_firstn. lia.
  - apply firstn_incl_Forall.
    apply (Permutation_Forall (x := filter (status_is APPROVED) (posts s))).
    + symmetry. apply sort_perm.
    + rewrite Forall_forall. intros p Hp. apply filter_In in Hp as [Hin Hst].
      split; [now apply status_is_true | exact Hin].
Qed.

(** C5, the part the code misses.  The loop of [get_daily_feed] computes an
    email or the placeholder for every entry, and the entries that are
    returned are rebuilt as [Post] models, which have no such field: the
    answer is the list of stored posts, the same whether the owner's email
    is one string or another, or the owner is missing. *)
Theorem feed_entries_lose_user_email :
  add_user_email "Anonymous" (map from_store [post2; post3]) db0 =
    (Ok [ {| fields := post2; user_email := Some "alice@example.com" |};
          {| fields := post3; user_email := Some "Anonymous" |} ], db0) /\
  serve (env_at "2024-05-02" 200 "n1") (GET_feed as_mona) db0 =
    (Ok (Posts [post2; post3]), db0) /\
  fst (serve (env_at "2024-05-02" 200 "n1") (GET_feed as_mona) db0_renamed) =
    Ok (Posts [post2; post3]) /\
  fst (serve (env_at "2024-05-02" 200 "n1") (GET_feed as_mona) db0_without_alice) =
    Ok (Posts [post2; post3]).
Proof. repeat split. Qed.


(** ** Creating a post *)

Lemma ContentTag_of_value_some t tg :
  ContentTag_of_value t = Some tg -> ContentTag_value tg = t.
Proof.
  unfold ContentTag_of_value, enum_of_value. intros H.
  apply find_some in H as [_ H]. now apply String.eqb_eq in H.
Qed.

Lemma ContentTag_of_value_member t :
  ContentTag_of_value t <> None <->
  In t ["Human2Human"; "InnerWorld"; "WitSpark"; "DeepThought"; "HeartLed";
        "CulturalSoul"; "AdaptFlow"].
Proof.
  split.
  - destruct (ContentTag_of_value t) as [tg|] eqn:E; [|congruence]. intros _.
    apply ContentTag_of_value_some in E. subst t. destruct tg; simpl; tauto.
  - simpl. intros H. repeat (destruct H as [<-|H]; [discriminate|]). contradiction.
Qed.

(** C7, as the code has it.  For a caller that resolves to a user, post
    creation fails with a validation error (422) whenever the tag is absent
    or is not the value of a member of the category enumeration (one of seven
    strings, case-sensitive), and whenever the content is absent; with a content, empty or not, and a member of the
    enumeration as tag, the outcome depends on the quota alone.  When
    creation succeeds, the body named a content and a member
    of the enumeration, and the store has gained, last, a post of the caller
    with that content and tag and with status pending. *)
Theorem create_post_validates_tag_only env payload body s user :
  caller payload s = Ok user ->
  let out := serve env (POST_posts payload body) s in
  ((forall t, body_tag body = Some t -> ContentTag_of_value t = None) ->
   exists field, out = (Raise (RequestValidationError field), s) /\
                 status_of (RequestValidationError field) = 422) /\
  (body_content body = None ->
   exists field, out = (Raise (RequestValidationError field), s) /\
                 status_of (RequestValidationError field) = 422) /\
  (forall t,
     ContentTag_of_value t <> None <->
     In t ["Human2Human"; "InnerWorld"; "WitSpark"; "DeepThought"; "HeartLed";
           "CulturalSoul"; "AdaptFlow"]) /\
  (forall text t tg,
     body_content body = Some text -> body_tag body = Some t ->
     ContentTag_of_value t = Some tg ->
     fst out =
       if is_day (User.last_post_date user) (today env) && (3 <=? User.posts_today user)
       then Raise (HTTPException 429 "Daily post limit reached (3 posts per day)")
       else Ok (Created "Post created successfully" (uuid4 env 0%nat))) /\
  (forall r s',
     out = (Ok r, s') ->
     exists text tg post,
       body_content body = Some text /\
       body_tag body = Some (ContentTag_value tg) /\
       post = Post_init (uuid4 env 0%nat) (now env) (User.id user) text tg /\
       Post.status post = PENDING /\
       posts s' = (posts s ++ [post])%list).
Proof.
  intros Hc. cbv zeta. rewrite serve_POST_posts, Hc. unfold validate_PostCreate.
  split; [|split; [|split; [|split]]].
  - intros Htag. destruct (body_content body); [|now eexists].
    destruct (body_tag body) as [t|]; [|now eexists].
    rewrite (Htag t eq_refl). now eexists.
  - intros ->. now eexists.
  - exact ContentTag_of_value_member.
  - intros text t tg -> -> ->. rewrite create_post_run. cbv zeta.
    now destruct (_ && _).
  - intros r s'. destruct (body_content body) as [text|]; [|discriminate].
    destruct (body_tag body) as [t|]; [|discriminate].
    destruct (ContentTag_of_value t) as [tg|] eqn:Et; [|discriminate].
    rewrite create_post_run. cbv zeta. destruct (_ && _); [discriminate|].
    intros [= <- <-]. exists text, tg, (Post_init (uuid4 env 0%nat) (now env) (User.id user) text tg).
    apply ContentTag_of_value_some in Et. subst t. now repeat split.
Qed.

Lemma create_post_validates_tag_only_witness :
  (exists field,
     serve (env_at "2024-05-02" 200 "n1")
           (POST_posts as_mona {| body_content := Some "hello"; body_tag := Some "human2human" |})
           db0 = (Raise (RequestValidationError field), db0) /\
     status_of (RequestValidationError field) = 422) /\
  fst (serve (env_at "2024-05-02" 200 "n1")
         (POST_posts as_mona {| body_content := Some ""; body_tag := Some "WitSpark" |}) db0) =
    Ok (Created "Post created successfully" "n1").
Proof.
  split.
  - destruct (create_post_validates_tag_only (env_at "2024-05-02" 200 "n1") as_mona
                {| body_content := Some "hello"; body_tag := Some "human2human" |}
                db0 mona eq_refl) as (Hbad & _).
    apply Hbad. now intros t [= <-].
  - destruct (create_post_validates_tag_only (env_at "2024-05-02" 200 "n1") as_mona
                {| body_content := Some ""; body_tag := Some "WitSpark" |}
                db0 mona eq_refl) as (_ & _ & _ & Hgood & _).
    exact (Hgood "" "WitSpark" WITSPARK eq_refl eq_refl eq_refl).
Defined.

(** C7 as stated fails on the code: a creation whose content is the empty
    string is accepted, and a pending post with empty content is stored. *)
Lemma empty_content_is_accepted :
  serve (env_at "2024-05-02" 200 "n1")
        (POST_posts as_mona {| body_content := Some ""; body_tag := Some "Human2Human" |})
        db0 =
    (Ok (Created "Post created successfully" "n1"),
     {| users := [alice;
                  User.mk "u-mona" "clerk_mona" "mona@example.com" MODERATOR
                          1 (Some "2024-05-02") 11;
                  sam];
        posts := [post1; post2; post3;
                  Post.mk "n1" "u-mona" "" HUMAN2HUMAN PENDING 0 0 200 None None] |}).
Proof. reflexivity. Qed.

(** ** Synchronising a user *)

(** C8.  With a payload that holds a subject identifier and an email (both
    present and, as the guard of the code reads presence, non-empty),
    [sync_user] creates a user with role new_user
    (zero posts today, no last post date) and answers "User created" when no
    stored user has that subject, and otherwise answers "User exists" with
    the stored document and leaves the store alone.  With a subject or an
    email that is missing (absent, or empty) it fails with 400 and leaves the
    store alone. *)
Theorem sync_user_creates_or_fetches env payload s :
  let out := sync_user env payload s in
  (forall c e,
     sub payload = Some c -> email payload = Some e -> c <> "" -> e <> "" ->
     (find_one (clerk_id_is c) (users s) = None ->
      let new_user := User.mk (uuid4 env 0%nat) c e NEW_USER 0 None (now env) in
      out = (Ok ("User created", new_user),
             {| users := (users s ++ [new_user])%list; posts := posts s |}) /\
      find_one (clerk_id_is c) (users (snd out)) = Some new_user) /\
     (forall user,
        find_one (clerk_id_is c) (users s) = Some user ->
        out = (Ok ("User exists", user), s))) /\
  (not_ (sub payload) = true \/ not_ (email payload) = true ->
   out = (Raise (HTTPException 400 "Invalid token payload"), s)) /\
  (sub payload = None \/ email payload = None ->
   out = (Raise (HTTPException 400 "Invalid token payload"), s)).
Proof.
  cbv zeta. rewrite sync_user_run. split; [|split].
  - intros c e -> -> Hc He.
    destruct (String.eqb_spec c ""); [contradiction|].
    destruct (String.eqb_spec e ""); [contradiction|]. simpl. split.
    + intros Hnone. rewrite Hnone. split; [reflexivity|]. simpl.
      rewrite (find_one_insert_one_none _ _ _ Hnone).
      unfold clerk_id_is, key_is. simpl. now rewrite String.eqb_refl.
    + now intros user ->.
  - destruct (sub payload) as [c|], (email payload) as [e|]; simpl; auto.
    intros [-> | ->]; simpl; auto. now rewrite orb_true_r.
  - now intros [-> | ->]; [|destruct (sub payload)].
Qed.

(** The guard is a truthiness test: an empty subject counts as a missing
    one, the payload is refused with 400 and no user is created. *)
Lemma sync_user_refuses_empty_subject :
  sub {| sub := Some ""; email := Some "zoe@example.com" |} <> None /\
  email {| sub := Some ""; email := Some "zoe@example.com" |} <> None /\
  sync_user (env_at "2024-05-02" 200 "n1")
            {| sub := Some ""; email := Some "zoe@example.com" |} db0 =
    (Raise (HTTPException 400 "Invalid token payload"), db0).
Proof. repeat split; discriminate. Qed.

Lemma sync_user_creates_or_fetches_witness :
  sync_user (env_at "2024-05-02" 200 "n1") as_zoe db0 =
    (Ok ("User created",
         User.mk "n1" "clerk_zoe" "zoe@example.com" NEW_USER 0 None 200),
     {| users := [alice; mona; sam;
                  User.mk "n1" "clerk_zoe" "zoe@example.com" NEW_USER 0 None 200];
        posts := posts db0 |}) /\
  sync_user (env_at "2024-05-02" 200 "n1") as_alice db0 = (Ok ("User exists", alice), db0) /\
  sync_user (env_at "2024-05-02" 200 "n1")
            {| sub := Some "clerk_zoe"; email := None |} db0 =
    (Raise (HTTPException 400 "Invalid token payload"), db0).
Proof.
  split; [|split].
  - destruct (sync_user_creates_or_fetches (env_at "2024-05-02" 200 "n1") as_zoe db0)
      as (H & _).
    destruct (H "clerk_zoe" "zoe@example.com" eq_refl eq_refl
                ltac:(discriminate) ltac:(discriminate)) as (Hnew & _).
    exact (proj1 (Hnew eq_refl)).
  - destruct (sync_user_creates_or_fetches (env_at "2024-05-02" 200 "n1") as_alice db0)
      as (H & _).
    destruct (H "clerk_alice" "alice@example.com" eq_refl eq_refl
                ltac:(discriminate) ltac:(discriminate)) as (_ & Hold).
    exact (Hold alice eq_refl).
  - destruct (sync_user_creates_or_fetches (env_at "2024-05-02" 200 "n1")
                {| sub := Some "clerk_zoe"; email := None |} db0) as (_ & _ & H).
    apply H. now right.
Defined.

(** ** Reactions *)

Lemma update_one_found {A} (P : A -> bool) upd l d :
  find_one P l = Some d -> update_one P upd l = update_one P (fun _ => upd d) l.
Proof.
  unfold find_one. induction l as [|x l IH]; simpl; auto.
  destruct (P x).
  - now intros [= ->].
  - intros H. now rewrite IH.
Qed.

Lemma nth_error_update_one_other {A} (P : A -> bool) upd l n d :
  nth_error l n = Some d -> P d = false ->
  nth_error (update_one P upd l) n = Some d.
Proof.
  intros Hn Hd. destruct (nth_error_update_one P upd l n d Hn) as [H|[Hf _]]; auto.
  apply find_one_some in Hf as [_ Hf]. congruence.
Qed.

(** C9.  For a caller that resolves to a user, [resonate_post] and
    [cherish_post] succeed.  When a post has the given identifier, the first
    such document gets its [resonates] (respectively [cherishes]) raised by
    exactly 1 and keeps every other field, documents with another identifier
    and all user documents are unchanged; when no post has the identifier,
    the call still succeeds and the store is unchanged. *)
Theorem reactions_increment_one_counter env payload post_id s user :
  caller payload s = Ok user ->
  let r := serve env (POST_posts_resonate payload post_id) s in
  let c := serve env (POST_posts_cherish payload post_id) s in
  fst r = Ok (Message "Resonated with post") /\
  fst c = Ok (Message "Cherished post") /\
  users (snd r) = users s /\ users (snd c) = users s /\
  length (posts (snd r)) = length (posts s) /\
  length (posts (snd c)) = length (posts s) /\
  (find_one (post_id_is post_id) (posts s) = None -> snd r = s /\ snd c = s) /\
  (forall post,
     find_one (post_id_is post_id) (posts s) = Some post ->
     exists post_r post_c,
       find_one (post_id_is post_id) (posts (snd r)) = Some post_r /\
       find_one (post_id_is post_id) (posts (snd c)) = Some post_c /\
       posts (snd r) = update_one (post_id_is post_id) (fun _ => post_r) (posts s) /\
       posts (snd c) = update_one (post_id_is post_id) (fun _ => post_c) (posts s) /\
       Post.resonates post_r = Post.resonates post + 1 /\
       Post.cherishes post_r = Post.cherishes post /\
       Post.cherishes post_c = Post.cherishes post + 1 /\
       Post.resonates post_c = Post.resonates post /\
       same_but_counters post post_r /\ same_but_counters post post_c) /\
  (forall n q,
     nth_error (posts s) n = Some q -> Post.id q <> post_id ->
     nth_error (posts (snd r)) n = Some q /\ nth_error (posts (snd c)) n = Some q).
Proof.
  intros Hc. cbv zeta.
  rewrite serve_POST_posts_resonate, serve_POST_posts_cherish, Hc. simpl.
  rewrite !update_one_length.
  do 6 (split; [reflexivity|]). split; [|split].
  - intros Hnone. rewrite !(update_one_none _ _ _ Hnone). now rewrite db_eta.
  - intros post Hf. exists (inc_resonates 1 post), (inc_cherishes 1 post).
    rewrite !find_one_update_one_same by reflexivity. rewrite Hf.
    rewrite <- !(update_one_found _ _ _ _ Hf).
    unfold same_but_counters. simpl. now repeat split.
  - intros n q Hn Hq.
    assert (post_id_is post_id q = false) by now apply String.eqb_neq.
    split; now apply nth_error_update_one_other.
Qed.

Lemma reactions_increment_one_counter_witness :
  serve (env_at "2024-05-02" 200 "n1") (POST_posts_resonate as_alice "p2") db0 =
    (Ok (Message "Resonated with post"),
     {| users := users db0;
        posts := [post1;
                  Post.mk "p2" "u-alice" "second" WITSPARK APPROVED 5 1 120
                          (Some 130) (Some "u-mona");
                  post3] |}) /\
  serve (env_at "2024-05-02" 200 "n1") (POST_posts_cherish as_alice "nowhere") db0 =
    (Ok (Message "Cherished post"), db0).
Proof.
  pose proof (reactions_increment_one_counter (env_at "2024-05-02" 200 "n1")
                as_alice "p2" db0 alice eq_refl) as Hp2.
  pose proof (reactions_increment_one_counter (env_at "2024-05-02" 200 "n1")
                as_alice "nowhere" db0 alice eq_refl) as Hno.
  cbv zeta in Hp2, Hno.
  destruct Hp2 as (Hr & _). destruct Hno as (_ & Hc & _ & _ & _ & _ & Hnone & _).
  destruct (Hnone eq_refl) as (_ & Hs).
  split.
  - apply injective_projections; [exact Hr | reflexivity].
  - apply injective_projections; [exact Hc | exact Hs].
Defined.

(** ** Rate limiting leaves no trace *)

Lemma caller_error payload s e :
  caller payload s = Raise e -> status_of e = 401 \/ status_of e = 404.
Proof.
  unfold caller. rewrite get_current_user_run. simpl.
  destruct (sub payload) as [c|]; [|intros [= <-]; now left].
  destruct (String.eqb c ""); [intros [= <-]; now left|].
  destruct (find_one _ (users s)); [discriminate | intros [= <-]; now right].
Qed.

Lemma validate_PostCreate_error body e :
  validate_PostCreate body = Raise e -> status_of e = 422.
Proof.
  unfold validate_PostCreate. destruct (body_content body); [|now intros [= <-]].
  destruct (body_tag body) as [t|]; [|now intros [= <-]].
  destruct (ContentTag_of_value t); [discriminate | now intros [= <-]].
Qed.

(** C10.  Post creation is answered with the rate-limit error (429) exactly
    when the caller resolves to a user whose [last_post_date] is the current
    day and whose [posts_today] is at least 3, the body being valid; the
    store after such an answer is the store before it: no post is inserted
    and no user document is modified. *)
Theorem rate_limited_creation_leaves_store env payload body s :
  let out := serve env (POST_posts payload body) s in
  (forall e,
     fst out = Raise e -> status_of e = 429 ->
     snd out = s /\
     e = HTTPException 429 "Daily post limit reached (3 posts per day)" /\
     exists user,
       caller payload s = Ok user /\
       User.last_post_date user = Some (today env) /\
       3 <= User.posts_today user) /\
  (forall user post_data,
     caller payload s = Ok user ->
     validate_PostCreate body = Ok post_data ->
     User.last_post_date user = Some (today env) ->
     3 <= User.posts_today user ->
     out = (Raise (HTTPException 429 "Daily post limit reached (3 posts per day)"), s)).
Proof.
  cbv zeta. rewrite serve_POST_posts. split.
  - intros e. destruct (caller payload s) as [user|e'] eqn:Hc; simpl.
    + destruct (validate_PostCreate body) as [pd|e'] eqn:Hv; simpl.
      * rewrite create_post_run. cbv zeta.
        destruct (is_day (User.last_post_date user) (today env)) eqn:Hd; simpl.
        -- destruct (3 <=? User.posts_today user) eqn:Hfull; simpl; [|discriminate].
           intros [= <-] _. repeat split. exists user. repeat split.
           ++ now apply is_day_true.
           ++ now apply Z.leb_le.
        -- discriminate.
      * intros [= <-] H. apply validate_PostCreate_error in Hv. lia.
    + intros [= <-] H. apply caller_error in Hc. lia.
  - intros user pd -> -> Hd Hfull. rewrite create_post_run. cbv zeta.
    rewrite Hd. simpl. rewrite String.eqb_refl. simpl.
    now rewrite (proj2 (Z.leb_le _ _) Hfull).
Qed.

Lemma rate_limited_creation_leaves_store_witness :
  serve (env_at "2024-05-02" 300 "n7") (POST_posts as_alice (a_post "four"))
        (final second_of_may db0) =
    (Raise (HTTPException 429 "Daily post limit reached (3 posts per day)"),
     final second_of_may db0).
Proof.
  destruct (rate_limited_creation_leaves_store (env_at "2024-05-02" 300 "n7")
              as_alice (a_post "four") (final second_of_may db0)) as (Hiff & _).
  destruct (Hiff (HTTPException 429 "Daily post limit reached (3 posts per day)")
              eq_refl eq_refl) as (Hs & _).
  apply injective_projections; [reflexivity | exact Hs].
Defined.

(** ** Beyond the claims: the bearer token *)

Lemma split_nonempty sep s : exists seg segs, split sep s = seg :: segs.
Proof.
  induction s as [|c s (seg & segs & IH)]; simpl.
  - now exists EmptyString, [].
  - rewrite IH. destruct (Ascii.eqb c sep); eauto.
Qed.

Lemma split_without_sep sep s : has_char sep s = false -> split sep s = [s].
Proof.
  induction s as [|c s IH]; simpl; auto.
  intros H. apply orb_false_iff in H as [Hc Hs]. now rewrite (IH Hs), Hc.
Qed.

Lemma split_first_segment sep a b :
  has_char sep a = false ->
  split sep (a ++ String sep b) = a :: split sep b.
Proof.
  induction a as [|c a IH]; simpl.
  - intros _. destruct (split_nonempty sep b) as (seg & segs & ->).
    now rewrite Ascii.eqb_refl.
  - intros H. apply orb_false_iff in H as [Hc Ha]. now rewrite (IH Ha), Hc.
Qed.

Lemma str_mul_succ c n :
  String.concat "" (repeat (String c "") (S n)) =
  String c (String.concat "" (repeat (String c "") n)).
Proof. destruct n; reflexivity. Qed.

Lemma str_mul_length c n :
  String.length (String.concat "" (repeat (String c "") n)) = n.
Proof.
  induction n as [|n IH]; [reflexivity|]. rewrite str_mul_succ. simpl. now rewrite IH.
Qed.

Lemma string_length_app a b :
  String.length (a ++ b) = (String.length a + String.length b)%nat.
Proof. induction a as [|c a IH]; simpl; auto. Qed.

Lemma rstrip_all c n : rstrip c (String.concat "" (repeat (String c "") n)) = "".
Proof.
  induction n as [|n IH]; [reflexivity|]. rewrite str_mul_succ. simpl.
  now rewrite IH, Ascii.eqb_refl.
Qed.

Lemma rstrip_app c a n :
  rstrip c (a ++ String.concat "" (repeat (String c "") n)) = rstrip c a.
Proof.
  induction a as [|x a IH]; simpl.
  - apply rstrip_all.
  - now rewrite IH.
Qed.

(** X1.  [verify_clerk_token] reads the second dot-separated part of the
    token and nothing else: a token without a dot is refused, every refusal
    is the 401 "Invalid token", and a token of three parts is answered by
    what the decoders make of the padded middle part, whatever its header
    and its signature are. *)
Theorem verify_clerk_token_reads_only_the_payload_part
    (urlsafe_b64decode : string -> option string)
    (json_loads : string -> option Payload) :
  let verify := verify_clerk_token urlsafe_b64decode json_loads in
  (forall token, has_char "." token = false ->
     verify token = Raise (HTTPException 401 "Invalid token")) /\
  (forall token e, verify token = Raise e -> e = HTTPException 401 "Invalid token") /\
  (forall header payload_part signature,
     has_char "." header = false -> has_char "." payload_part = false ->
     verify (join_token header payload_part signature) =
       match urlsafe_b64decode (add_padding payload_part) with
       | None => Raise (HTTPException 401 "Invalid token")
       | Some decoded =>
           match json_loads decoded with
           | None => Raise (HTTPException 401 "Invalid token")
           | Some payload => Ok payload
           end
       end) /\
  (forall header header' payload_part signature signature',
     has_char "." header = false -> has_char "." header' = false ->
     has_char "." payload_part = false ->
     verify (join_token header payload_part signature) =
     verify (join_token header' payload_part signature')).
Proof.
  cbv zeta.
  assert (Hmid : forall header payload_part signature,
             has_char "." header = false -> has_char "." payload_part = false ->
             nth_error (split "." (join_token header payload_part signature)) 1 =
               Some payload_part).
  { intros h p sg Hh Hp. unfold join_token.
    change (h ++ "." ++ p ++ "." ++ sg) with (h ++ String "." (p ++ String "." sg)).
    now rewrite (split_first_segment _ _ _ Hh), (split_first_segment _ _ _ Hp). }
  split; [|split; [|split]].
  - intros token H. unfold verify_clerk_token. now rewrite (split_without_sep _ _ H).
  - intros token e. unfold verify_clerk_token.
    destruct (nth_error _ 1) as [p|]; [|now intros [= <-]].
    destruct (urlsafe_b64decode _) as [d|]; [|now intros [= <-]].
    destruct (json_loads d); [discriminate | now intros [= <-]].
  - intros h p sg Hh Hp. unfold verify_clerk_token. now rewrite (Hmid h p sg Hh Hp).
  - intros h h' p sg sg' Hh Hh' Hp. unfold verify_clerk_token.
    now rewrite (Hmid h p sg Hh Hp), (Hmid h' p sg' Hh' Hp).
Qed.

Lemma verify_clerk_token_reads_only_the_payload_part_witness :
  verify_clerk_token toy_b64decode toy_json_loads "no dots here" =
    Raise (HTTPException 401 "Invalid token") /\
  verify_clerk_token toy_b64decode toy_json_loads (join_token "hdr" "abcde" "sig") =
    Ok {| sub := Some "abcde==="; email := None |} /\
  verify_clerk_token toy_b64decode toy_json_loads (join_token "hdr" "abcde" "sig") =
  verify_clerk_token toy_b64decode toy_json_loads (join_token "other" "abcde" "forged.sig").
Proof.
  destruct (verify_clerk_token_reads_only_the_payload_part toy_b64decode toy_json_loads)
    as (Hnone & _ & Hmid & Hsame).
  split; [|split].
  - now apply Hnone.
  - now rewrite Hmid.
  - now apply Hsame.
Defined.

(** X2.  The padding of [verify_clerk_token] makes the length of any part a
    multiple of 4 by appending at most three ["="], and it undoes the
    [rstrip("=")] of the token builder: on a text that ends in fewer than
    four ["="] and whose length is a multiple of 4, as base64 text is,
    stripping and padding again gives the text back. *)
Theorem add_padding_restores_stripped_base64 core k :
  rstrip "=" core = core ->
  (k < 4)%nat ->
  Nat.modulo (String.length core + k) 4 = 0%nat ->
  let text := core ++ str_mul "=" (Z.of_nat k) in
  add_padding (rstrip "=" text) = text /\
  (forall part,
     Nat.modulo (String.length (add_padding part)) 4 = 0%nat /\
     (String.length (add_padding part) <= String.length part + 3)%nat /\
     (Nat.modulo (String.length part) 4 = 0%nat -> add_padding part = part)).
Proof.
  intros Hcore Hk Hmod. cbv zeta. split.
  - unfold add_padding, str_mul. rewrite Nat2Z.id, rstrip_app, Hcore.
    assert (Hpad : Z.to_nat ((- Z.of_nat (String.length core)) mod 4) = k).
    { apply Nat2Z.inj. rewrite Z2Nat.id by (apply Z.mod_pos_bound; lia).
      pose proof (Nat.Div0.div_mod (String.length core + k) 4) as Hd. rewrite Hmod in Hd.
      set (q := ((String.length core + k) / 4)%nat) in *.
      replace (- Z.of_nat (String.length core)) with (Z.of_nat k + (- Z.of_nat q) * 4) by lia.
      rewrite Z.mod_add by lia. apply Z.mod_small. lia. }
    now rewrite Hpad.
  - intros part. unfold add_padding, str_mul.
    set (n := String.length part).
    pose proof (Z.mod_pos_bound (- Z.of_nat n) 4 ltac:(lia)) as Hb.
    rewrite string_length_app, str_mul_length. split; [|split].
    + apply Nat2Z.inj. rewrite Nat2Z.inj_mod, Nat2Z.inj_add, Z2Nat.id by lia.
      change (Z.of_nat 4) with 4. rewrite Z.add_mod_idemp_r by lia.
      subst n. now replace (Z.of_nat (String.length part) + - Z.of_nat (String.length part))
        with 0 by lia.
    + lia.
    + intros Hn. apply (f_equal Z.of_nat) in Hn. rewrite Nat2Z.inj_mod in Hn.
      change (Z.of_nat 4) with 4 in Hn. change (Z.of_nat 0) with 0 in Hn.
      assert ((- Z.of_nat n) mod 4 = 0) as ->.
      { apply Z.mod_divide; [lia|]. apply Z.divide_opp_r.
        apply Z.mod_divide; [lia | exact Hn]. }
      simpl. clear. induction part as [|c part IH]; simpl; [reflexivity | now rewrite IH].
Qed.

Lemma add_padding_restores_stripped_base64_witness :
  add_padding (rstrip "=" "eyJhIjoxfQ==") = "eyJhIjoxfQ==".
Proof.
  destruct (add_padding_restores_stripped_base64 "eyJhIjoxfQ" 2 eq_refl
              ltac:(repeat constructor) eq_refl) as (H & _).
  exact H.
Defined.

(** ** Beyond the claims: resolving and creating users *)

(** X3.  [get_current_user] never writes.  It answers 401 when the payload
    has no subject or an empty one, 404 when no stored user has the subject,
    and otherwise the first stored user whose [clerk_id] is the subject; the
    email of the payload plays no part. *)
Theorem get_current_user_outcomes payload s :
  snd (get_current_user payload s) = s /\
  (sub payload = None \/ sub payload = Some "" ->
   fst (get_current_user payload s) = Raise (HTTPException 401 "Invalid token")) /\
  (forall c,
     sub payload = Some c -> c <> "" ->
     find_one (clerk_id_is c) (users s) = None ->
     fst (get_current_user payload s) = Raise (HTTPException 404 "User not found")) /\
  (forall user,
     fst (get_current_user payload s) = Ok user ->
     sub payload = Some (User.clerk_id user) /\ User.clerk_id user <> "" /\
     find_one (clerk_id_is (User.clerk_id user)) (users s) = Some user) /\
  (forall other_email,
     get_current_user {| sub := sub payload; email := other_email |} s =
     get_current_user payload s).
Proof.
  rewrite !get_current_user_run. simpl. split; [reflexivity|]. split; [|split; [|split]].
  - now intros [-> | ->].
  - intros c -> Hc ->. now destruct (String.eqb_spec c "").
  - intros user. destruct (sub payload) as [c|]; [|discriminate].
    destruct (String.eqb_spec c ""); [discriminate|].
    destruct (find_one (clerk_id_is c) (users s)) as [v|] eqn:F; [|discriminate].
    intros [= ->]. apply find_one_some in F as Hv. destruct Hv as [_ Hv].
    apply String.eqb_eq in Hv. subst c. auto.
  - intros other_email. now rewrite get_current_user_run.
Qed.

Lemma get_current_user_outcomes_witness :
  fst (get_current_user {| sub := Some ""; email := Some "alice@example.com" |} db0) =
    Raise (HTTPException 401 "Invalid token") /\
  fst (get_current_user as_zoe db0) = Raise (HTTPException 404 "User not found") /\
  sub as_mona = Some (User.clerk_id mona).
Proof.
  destruct (get_current_user_outcomes {| sub := Some ""; email := Some "alice@example.com" |}
              db0) as (_ & H401 & _).
  destruct (get_current_user_outcomes as_zoe db0) as (_ & _ & H404 & _).
  destruct (get_current_user_outcomes as_mona db0) as (_ & _ & _ & Hok & _).
  split; [|split].
  - apply H401. now right.
  - apply (H404 "clerk_zoe"); [reflexivity | discriminate | reflexivity].
  - now apply Hok.
Defined.

(** X4.  After [sync_user] has answered with a user, created or found, the
    same payload resolves to that user: [GET /me] returns it, and a second
    sync answers "User exists" with it and changes nothing. *)
Theorem sync_user_then_resolves env env' payload s message user s' :
  sync_user env payload s = (Ok (message, user), s') ->
  get_current_user payload s' = (Ok user, s') /\
  serve env' (GET_me payload) s' = (Ok (TheUser user), s') /\
  sync_user env' payload s' = (Ok ("User exists", user), s').
Proof.
  rewrite sync_user_run. destruct (sub payload) as [c|] eqn:Hs; [|discriminate].
  destruct (email payload) as [e|] eqn:He; [|discriminate].
  destruct (String.eqb c "") eqn:Hc; [discriminate|].
  destruct (String.eqb e "") eqn:Hee; [discriminate|]. simpl.
  assert (Hfound : find_one (clerk_id_is c) (users s') = Some user ->
          get_current_user payload s' = (Ok user, s') /\
          serve env' (GET_me payload) s' = (Ok (TheUser user), s') /\
          sync_user env' payload s' = (Ok ("User exists", user), s')).
  { intros F. assert (Hg : get_current_user payload s' = (Ok user, s'))
      by now rewrite get_current_user_run, Hs, Hc, F.
    split; [exact Hg|]. split.
    - unfold serve. rewrite bind_current_user. unfold caller. rewrite Hg. reflexivity.
    - now rewrite sync_user_run, Hs, He, Hc, Hee, F. }
  destruct (find_one (clerk_id_is c) (users s)) as [v|] eqn:F.
  - intros [= _ <- <-]. now apply Hfound.
  - intros [= _ <- <-]. apply Hfound. simpl.
    rewrite (find_one_insert_one_none _ _ _ F).
    unfold clerk_id_is, key_is. simpl. now rewrite String.eqb_refl.
Qed.

Lemma sync_user_then_resolves_witness :
  let zoe := User.mk "n1" "clerk_zoe" "zoe@example.com" NEW_USER 0 None 200 in
  let s' := {| users := [alice; mona; sam; zoe]; posts := posts db0 |} in
  serve (env_at "2024-05-02" 201 "n2") (GET_me as_zoe) s' = (Ok (TheUser zoe), s') /\
  sync_user (env_at "2024-05-02" 202 "n3") as_zoe s' = (Ok ("User exists", zoe), s').
Proof.
  cbv zeta.
  destruct (sync_user_then_resolves (env_at "2024-05-02" 200 "n1")
              (env_at "2024-05-02" 201 "n2") as_zoe db0 "User created"
              (User.mk "n1" "clerk_zoe" "zoe@example.com" NEW_USER 0 None 200)
              {| users := [alice; mona; sam;
                           User.mk "n1" "clerk_zoe" "zoe@example.com" NEW_USER 0 None 200];
                 posts := posts db0 |} eq_refl) as (_ & Hme & _).
  destruct (sync_user_then_resolves (env_at "2024-05-02" 200 "n1")
              (env_at "2024-05-02" 202 "n3") as_zoe db0 "User created"
              (User.mk "n1" "clerk_zoe" "zoe@example.com" NEW_USER 0 None 200)
              {| users := [alice; mona; sam;
                           User.mk "n1" "clerk_zoe" "zoe@example.com" NEW_USER 0 None 200];
                 posts := posts db0 |} eq_refl) as (_ & _ & Hsync).
  split; [exact Hme | exact Hsync].
Defined.

(** X5.  [register_user] is keyed by email.  With a stored user of that
    email it answers "User already exists" and writes nothing.  Otherwise it
    stores, last, one user of that email with a generated [clerk_id], no
    posts today and no last post date, whose role is moderator exactly when
    the invite code is "aieventuallylose" and new_user otherwise; a later
    registration of the same email, with any invite code, changes nothing. *)
Theorem register_user_by_email env user_data s :
  let out := register_user env user_data s in
  let mail := UserCreate.email user_data in
  (forall u, find_one (email_is mail) (users s) = Some u ->
             out = (Ok ("User already exists", None), s)) /\
  (find_one (email_is mail) (users s) = None ->
   exists user,
     fst out = Ok ("User registered successfully", Some (UserRole_value (User.role user))) /\
     users (snd out) = (users s ++ [user])%list /\
     posts (snd out) = posts s /\
     (User.role user = MODERATOR <->
      UserCreate.invite_code user_data = Some "aieventuallylose") /\
     (User.role user = NEW_USER <->
      UserCreate.invite_code user_data <> Some "aieventuallylose") /\
     User.email user = mail /\
     User.id user = uuid4 env 1%nat /\ User.clerk_id user = uuid4 env 0%nat /\
     User.posts_today user = 0 /\ User.last_post_date user = None /\
     find_one (email_is mail) (users (snd out)) = Some user /\
     (forall env' code,
        register_user env' (a_registration mail code) (snd out) =
          (Ok ("User already exists", None), snd out))).
Proof.
  cbv zeta. rewrite register_user_run. split.
  - now intros u ->.
  - intros Hnone. rewrite Hnone. cbv zeta.
    set (role := match UserCreate.invite_code user_data with
                 | Some code => if String.eqb code "aieventuallylose"
                                then MODERATOR else NEW_USER
                 | None => NEW_USER
                 end).
    set (user := User_init (uuid4 env 1%nat) (now env) (uuid4 env 0%nat)
                   (UserCreate.email user_data) role).
    assert (Hf : find_one (email_is (UserCreate.email user_data))
                   (insert_one user (users s)) = Some user).
    { rewrite (find_one_insert_one_none _ _ _ Hnone).
      unfold email_is, key_is. simpl. now rewrite String.eqb_refl. }
    assert (Hrole : role = MODERATOR <->
                    UserCreate.invite_code user_data = Some "aieventuallylose").
    { unfold role. destruct (UserCreate.invite_code user_data) as [code|].
      - destruct (String.eqb_spec code "aieventuallylose") as [E|Hne].
        + rewrite E. tauto.
        + split; [discriminate | congruence].
      - split; discriminate. }
    exists user. simpl. repeat split; auto; try apply Hrole.
    + intros Hn E. apply Hrole in E. congruence.
    + intros Hn. destruct role eqn:Er; auto.
      * exfalso. now apply Hn, Hrole.
      * exfalso. unfold role in Er. destruct (UserCreate.invite_code user_data) as [code|];
          [destruct (String.eqb code "aieventuallylose")|]; discriminate.
    + intros env' code. rewrite register_user_run. simpl. now rewrite Hf.
Qed.

Lemma register_user_by_email_witness :
  register_user (env_at "2024-05-02" 200 "n1")
                (a_registration "mona@example.com" (Some "aieventuallylose")) db0 =
    (Ok ("User already exists", None), db0) /\
  fst (register_user (env_at "2024-05-02" 200 "n1")
         (a_registration "new@example.com" (Some "aieventuallylose")) db0) =
    Ok ("User registered successfully", Some "moderator") /\
  fst (register_user (env_at "2024-05-02" 200 "n1")
         (a_registration "new@example.com" (Some "AIEVENTUALLYLOSE")) db0) =
    Ok ("User registered successfully", Some "new_user").
Proof.
  destruct (register_user_by_email (env_at "2024-05-02" 200 "n1")
              (a_registration "mona@example.com" (Some "aieventuallylose")) db0)
    as (Hold & _).
  destruct (register_user_by_email (env_at "2024-05-02" 200 "n1")
              (a_registration "new@example.com" (Some "aieventuallylose")) db0)
    as (_ & Hmod).
  destruct (register_user_by_email (env_at "2024-05-02" 200 "n1")
              (a_registration "new@example.com" (Some "AIEVENTUALLYLOSE")) db0)
    as (_ & Hnew).
  split; [|split].
  - exact (Hold mona eq_refl).
  - destruct (Hmod eq_refl) as (u & Hans & _ & _ & Hrole & _).
    rewrite Hans, (proj2 Hrole eq_refl). reflexivity.
  - destruct (Hnew eq_refl) as (u & Hans & _ & _ & _ & Hrole & _).
    rewrite Hans, (proj2 Hrole ltac:(discriminate)). reflexivity.
Defined.

(** ** Beyond the claims: what no run of requests changes *)

Lemma nth_error_update_one_rel {A} (R : A -> A -> Prop) (P : A -> bool) upd l n d :
  R d d -> (forall x, R x (upd x)) ->
  nth_error l n = Some d ->
  exists d', nth_error (update_one P upd l) n = Some d' /\ R d d'.
Proof.
  intros Hrefl Hupd Hn.
  destruct (nth_error_update_one P upd l n d Hn) as [H|[_ H]]; eauto.
Qed.

(** A property of every position that one request keeps, and that chains,
    is kept by a run. *)
Lemma run_pointwise {A} (coll : db -> list A) (R : A -> A -> Prop) :
  (forall x, R x x) ->
  (forall x y z, R x y -> R y z -> R x z) ->
  (forall env req s n x,
     nth_error (coll s) n = Some x ->
     exists y, nth_error (coll (snd (serve env req s))) n = Some y /\ R x y) ->
  forall reqs s n x,
    nth_error (coll s) n = Some x ->
    exists y, nth_error (coll (final reqs s)) n = Some y /\ R x y.
Proof.
  intros Hrefl Htrans Hstep. induction reqs as [|[env req] rest IH]; intros s n x Hn.
  - exists x. auto.
  - destruct (Hstep env req s n x Hn) as (y & Hy & Rxy).
    destruct (IH _ _ _ Hy) as (z & Hz & Ryz).
    exists z. rewrite final_cons. eauto.
Qed.

Lemma same_identity_refl u : same_identity u u.
Proof. now repeat split. Qed.

Lemma same_identity_trans u v w : same_identity u v -> same_identity v w -> same_identity u w.
Proof. unfold same_identity. intuition congruence. Qed.

Lemma later_state_refl p : later_state p p.
Proof. unfold later_state. repeat split; lia. Qed.

Lemma later_state_trans p q r : later_state p q -> later_state q r -> later_state p r.
Proof. unfold later_state. intuition (try congruence; lia). Qed.

Lemma serve_users_step env req s n u :
  nth_error (users s) n = Some u ->
  exists u', nth_error (users (snd (serve env req s))) n = Some u' /\ same_identity u u'.
Proof.
  intros Hn. pose proof (serve_reads env req s) as Hreads.
  pose proof (same_identity_refl u) as Hrefl.
  destruct req; try (rewrite Hreads; now exists u).
  - unfold serve. rewrite fmap_run, register_user_run.
    destruct (find_one _ (users s)); simpl; exists u; auto.
    split; auto. now apply nth_error_insert_one.
  - unfold serve. rewrite fmap_run, sync_user_run.
    destruct (sub payload) as [c|], (email payload) as [e|]; simpl; try (now exists u).
    destruct (String.eqb c "" || String.eqb e ""); simpl; try (now exists u).
    destruct (find_one _ (users s)); simpl; exists u; auto.
    split; auto. now apply nth_error_insert_one.
  - rewrite serve_POST_posts. destruct (caller payload s) as [v|]; simpl; try (now exists u).
    destruct (validate_PostCreate body); simpl; try (now exists u).
    rewrite create_post_run. cbv zeta. destruct (_ && _); simpl; try (now exists u).
    assert (Hinc : forall x, same_identity x (inc_posts_today 1 x)) by (intros x; now repeat split).
    assert (Hset : forall x, same_identity x (set_quota 0 (today env) x))
      by (intros x; now repeat split).
    destruct (is_day (User.last_post_date v) (today env)).
    + now apply nth_error_update_one_rel.
    + destruct (nth_error_update_one_rel same_identity (user_id_is (User.id v))
                  (set_quota 0 (today env)) _ _ _ Hrefl Hset Hn) as (u1 & Hn1 & R1).
      destruct (nth_error_update_one_rel same_identity (user_id_is (User.id v))
                  (inc_posts_today 1) _ _ _ (same_identity_refl u1) Hinc Hn1)
        as (u2 & Hn2 & R2).
      exists u2. split; [exact Hn2 | now apply (same_identity_trans u u1 u2)].
  - rewrite serve_PUT_posts_review.
    destruct (caller payload s); simpl; try (now exists u).
    destruct (is_moderator_role _); simpl; try (now exists u).
    destruct (validate_PostUpdate body); simpl; try (now exists u).
    rewrite review_post_run. destruct (find_one _ (posts s)); simpl; try (now exists u).
    destruct (PostStatus_eqb _ _); simpl; now exists u.
  - rewrite serve_POST_posts_resonate. destruct (caller payload s); simpl; now exists u.
  - rewrite serve_POST_posts_cherish. destruct (caller payload s); simpl; now exists u.
Qed.

Lemma serve_posts_later env req s n p :
  nth_error (posts s) n = Some p ->
  exists p', nth_error (posts (snd (serve env req s))) n = Some p' /\ later_state p p'.
Proof.
  intros Hn. pose proof (serve_reads env req s) as Hreads.
  pose proof (later_state_refl p) as Hrefl.
  destruct req; try (rewrite Hreads; now exists p).
  - unfold serve. rewrite fmap_run, register_user_run.
    destruct (find_one _ (users s)); simpl; now exists p.
  - unfold serve. rewrite fmap_run, sync_user_run.
    destruct (sub payload) as [c|], (email payload) as [e|]; simpl; try (now exists p).
    destruct (String.eqb c "" || String.eqb e ""); simpl; try (now exists p).
    destruct (find_one _ (users s)); simpl; now exists p.
  - rewrite serve_POST_posts. destruct (caller payload s); simpl; try (now exists p).
    destruct (validate_PostCreate body); simpl; try (now exists p).
    rewrite create_post_run. cbv zeta. destruct (_ && _); simpl; try (now exists p).
    exists p. split; auto. now apply nth_error_insert_one.
  - rewrite serve_PUT_posts_review.
    destruct (caller payload s) as [u|]; simpl; try (now exists p).
    destruct (is_moderator_role _); simpl; try (now exists p).
    destruct (validate_PostUpdate body) as [rd|]; simpl; try (now exists p).
    rewrite review_post_run. destruct (find_one _ (posts s)) as [q|]; simpl; try (now exists p).
    destruct (PostStatus_eqb _ _); simpl; try (now exists p).
    apply nth_error_update_one_rel; auto.
    intros x. unfold later_state. simpl. repeat split; lia.
  - rewrite serve_POST_posts_resonate. destruct (caller payload s); simpl; try (now exists p).
    apply nth_error_update_one_rel; auto.
    intros x. unfold later_state. simpl. repeat split; lia.
  - rewrite serve_POST_posts_cherish. destruct (caller payload s); simpl; try (now exists p).
    apply nth_error_update_one_rel; auto.
    intros x. unfold later_state. simpl. repeat split; lia.
Qed.

Lemma nth_error_length_le {A} (l l' : list A) :
  (forall n x, nth_error l n = Some x -> exists y, nth_error l' n = Some y) ->
  (length l <= length l')%nat.
Proof.
  intros H. destruct l as [|a l0] eqn:El; [simpl; lia|]. rewrite <- El in *.
  assert (Hlast : (length l - 1 < length l)%nat) by (rewrite El; simpl; lia).
  apply nth_error_Some in Hlast.
  destruct (nth_error l (length l - 1)) as [x|] eqn:E; [|congruence].
  destruct (H _ _ E) as (y & Hy).
  assert (nth_error l' (length l - 1) <> None) by congruence.
  apply nth_error_Some in H0. lia.
Qed.

(** X6.  No request changes who a user is: over any run of requests every
    stored user keeps its place and its [id], [clerk_id], [email], [role] and
    [created_at] (only the two quota fields can change), so no user is ever
    removed and a subject keeps resolving to the same user. *)
Theorem users_keep_their_identity reqs s :
  (forall n user,
     nth_error (users s) n = Some user ->
     exists user', nth_error (users (final reqs s)) n = Some user' /\
                   same_identity user user') /\
  (length (users s) <= length (users (final reqs s)))%nat /\
  (forall c user,
     find_one (clerk_id_is c) (users s) = Some user ->
     exists user', find_one (clerk_id_is c) (users (final reqs s)) = Some user' /\
                   same_identity user user').
Proof.
  assert (Hpt : forall n user,
     nth_error (users s) n = Some user ->
     exists user', nth_error (users (final reqs s)) n = Some user' /\
                   same_identity user user').
  { intros n user. apply (run_pointwise users same_identity).
    - apply same_identity_refl.
    - apply same_identity_trans.
    - apply serve_users_step. }
  split; [exact Hpt|]. split.
  - apply nth_error_length_le. intros n x Hx. destruct (Hpt n x Hx) as (y & Hy & _). eauto.
  - intros c user Hf.
    apply (find_one_pointwise (clerk_id_is c) same_identity) with (l := users s); auto.
    intros x y (_ & E & _). unfold clerk_id_is, key_is. now rewrite E.
Qed.

(** X7.  A caller's access rights are permanent.  Once a payload resolves to
    a user, it resolves to that user after any run of requests, with the same
    role; the routes that require a moderator then answer 403 and write
    nothing if the role is new_user, and never answer 401 or 403 if the role
    is moderator or seed_user. *)
Theorem access_rights_are_permanent reqs s payload user :
  caller payload s = Ok user ->
  let s' := final reqs s in
  exists user',
    caller payload s' = Ok user' /\ same_identity user user' /\
    forall env req,
      moderators_only req = true -> payload_of req = Some payload ->
      (is_moderator_role (User.role user) = false ->
       serve env req s' = (Raise (HTTPException 403 "Moderator access required"), s')) /\
      (is_moderator_role (User.role user) = true ->
       forall e, fst (serve env req s') = Raise e ->
                 status_of e <> 401 /\ status_of e <> 403).
Proof.
  intros Hc. cbv zeta.
  destruct (caller_ok _ _ _ Hc) as (c & Hs & Hne & Hf).
  destruct (users_keep_their_identity reqs s) as (_ & _ & Hres).
  destruct (Hres c user Hf) as (user' & Hf' & Hid).
  pose proof (caller_resolves payload (final reqs s) c user' Hs Hne Hf') as Hc'.
  exists user'. split; [exact Hc'|]. split; [exact Hid|].
  assert (Hrole : User.role user' = User.role user) by apply Hid.
  intros env req Hmod Hpay.
  destruct req; try discriminate; injection Hpay as ->; split; intros Hr.
  - unfold serve. now rewrite bind_current_user, Hc', bind_moderator, Hrole, Hr.
  - unfold serve. rewrite bind_current_user, Hc', bind_moderator, Hrole, Hr.
    rewrite fmap_run, get_pending_posts_run. discriminate.
  - rewrite serve_PUT_posts_review, Hc', Hrole, Hr. reflexivity.
  - rewrite serve_PUT_posts_review, Hc', Hrole, Hr.
    destruct (validate_PostUpdate body) as [rd|e'] eqn:Hv.
    + rewrite review_post_run.
      destruct (find_one (post_id_is post_id) (posts (final reqs s))) as [q|]; simpl.
      * destruct (PostStatus_eqb (Post.status q) PENDING); simpl; [discriminate|].
        intros e [= <-]. simpl. split; discriminate.
      * intros e [= <-]. simpl. split; discriminate.
    + simpl. intros e [= <-]. unfold validate_PostUpdate in Hv.
      destruct (body_status body) as [st|]; [|injection Hv as <-; simpl; split; discriminate].
      destruct (PostStatus_of_value st); [|injection Hv as <-; simpl; split; discriminate].
      destruct (body_reviewer_id body); [discriminate|].
      injection Hv as <-; simpl; split; discriminate.
  - unfold serve. now rewrite bind_current_user, Hc', bind_moderator, Hrole, Hr.
  - unfold serve. rewrite bind_current_user, Hc', bind_moderator, Hrole, Hr.
    rewrite fmap_run, get_approved_posts_run. discriminate.
  - unfold serve. now rewrite bind_current_user, Hc', bind_moderator, Hrole, Hr.
  - unfold serve. rewrite bind_current_user, Hc', bind_moderator, Hrole, Hr.
    rewrite fmap_run. unfold get_stats. unfold_handler. discriminate.
Qed.

Lemma access_rights_are_permanent_witness :
  serve (env_at "2024-05-02" 300 "n7") (GET_stats as_alice) (final second_of_may db0) =
    (Raise (HTTPException 403 "Moderator access required"), final second_of_may db0).
Proof.
  destruct (access_rights_are_permanent second_of_may db0 as_alice alice eq_refl)
    as (u' & _ & _ & H).
  destruct (H (env_at "2024-05-02" 300 "n7") (GET_stats as_alice) eq_refl eq_refl)
    as (H403 & _).
  now apply H403.
Defined.

(** X8.  Posts are never removed or rewritten: over any run of requests every
    stored post keeps its place and its [id], [user_id], [content], [tag] and
    [created_at], and its two reaction counters never go down. *)
Theorem posts_are_kept reqs s :
  (forall n post,
     nth_error (posts s) n = Some post ->
     exists post', nth_error (posts (final reqs s)) n = Some post' /\
                   later_state post post') /\
  (length (posts s) <= length (posts (final reqs s)))%nat.
Proof.
  assert (Hpt : forall n post,
     nth_error (posts s) n = Some post ->
     exists post', nth_error (posts (final reqs s)) n = Some post' /\
                   later_state post post').
  { intros n post. apply (run_pointwise posts later_state).
    - apply later_state_refl.
    - apply later_state_trans.
    - apply serve_posts_later. }
  split; [exact Hpt|].
  apply nth_error_length_le. intros n x Hx. destruct (Hpt n x Hx) as (y & Hy & _). eauto.
Qed.

Lemma users_keep_their_identity_witness :
  exists user',
    nth_error (users (final second_of_may db0)) 0 = Some user' /\
    User.role user' = NEW_USER /\ User.email user' = "alice@example.com".
Proof.
  destruct (users_keep_their_identity second_of_may db0) as (H & _).
  destruct (H 0%nat alice eq_refl) as (u' & Hn & _ & _ & He & Hr & _).
  exists u'. auto.
Defined.

Lemma posts_are_kept_witness :
  exists post',
    nth_error (posts (final second_of_may db0)) 1 = Some post' /\
    Post.content post' = "second" /\ 4 <= Post.resonates post'.
Proof.
  destruct (posts_are_kept second_of_may db0) as (H & _).
  destruct (H 1%nat post2 eq_refl) as (p' & Hn & _ & _ & Hc & _ & _ & Hr & _).
  exists p'. auto.
Defined.

(** ** Beyond the claims: failures *)

Lemma validate_PostUpdate_error body e :
  validate_PostUpdate body = Raise e -> status_of e = 422.
Proof.
  unfold validate_PostUpdate. destruct (body_status body) as [st|]; [|now intros [= <-]].
  destruct (PostStatus_of_value st); [|now intros [= <-]].
  destruct (body_reviewer_id body); [discriminate | now intros [= <-]].
Qed.



(** ** Beyond the claims: distinct identifiers *)

Lemma serve_user_ids env req s :
  map User.id (users (snd (serve env req s))) = map User.id (users s) \/
  exists i, new_user_id env req = Some i /\
            map User.id (users (snd (serve env req s))) = (map User.id (users s) ++ [i])%list.
Proof.
  pose proof (serve_reads env req s) as Hreads.
  destruct req; try (rewrite Hreads; now left).
  - unfold serve. rewrite fmap_run, register_user_run.
    destruct (find_one _ (users s)); simpl; [now left|].
    right. eexists. split; [reflexivity|]. unfold insert_one. now rewrite map_app.
  - unfold serve. rewrite fmap_run, sync_user_run.
    destruct (sub payload) as [c|], (email payload) as [e|]; simpl; try (now left).
    destruct (String.eqb c "" || String.eqb e ""); simpl; try (now left).
    destruct (find_one _ (users s)); simpl; [now left|].
    right. eexists. split; [reflexivity|]. unfold insert_one. now rewrite map_app.
  - left. rewrite serve_POST_posts. destruct (caller payload s) as [v|]; simpl; auto.
    destruct (validate_PostCreate body); simpl; auto.
    rewrite create_post_run. cbv zeta. destruct (_ && _); simpl; auto.
    destruct (is_day _ _); now rewrite !update_one_map.
  - left. rewrite serve_PUT_posts_review.
    destruct (caller payload s); simpl; auto.
    destruct (is_moderator_role _); simpl; auto.
    destruct (validate_PostUpdate body); simpl; auto.
    rewrite review_post_run. destruct (find_one _ (posts s)); simpl; auto.
    now destruct (PostStatus_eqb _ _).
  - left. rewrite serve_POST_posts_resonate. now destruct (caller payload s).
  - left. rewrite serve_POST_posts_cherish. now destruct (caller payload s).
Qed.

(** X10.  User identifiers stay distinct: from a store in which no two users
    share an [id], any run of requests in which the generator never hands
    out, for a new user, an identifier already stored ends in such a store.
    Only [register_user] and [sync_user] add an identifier, and no request
    removes or changes one. *)
Theorem user_ids_stay_distinct reqs : forall s,
  wf_db s -> fresh_run reqs s ->
  wf_db (final reqs s) /\
  (forall i, In i (map User.id (users s)) -> In i (map User.id (users (final reqs s)))).
Proof.
  induction reqs as [|[env req] rest IH]; intros s Hwf Hfresh.
  - unfold final. simpl. auto.
  - destruct Hfresh as [Hfr Hfresh]. rewrite final_cons.
    assert (Hstep : wf_db (snd (serve env req s)) /\
                    forall i, In i (map User.id (users s)) ->
                              In i (map User.id (users (snd (serve env req s))))).
    { unfold wf_db in *. destruct (serve_user_ids env req s) as [E|(i & Hi & E)]; rewrite E.
      - auto.
      - split; [|intros j Hj; apply in_or_app; now left].
        unfold fresh_ids in Hfr. rewrite Hi in Hfr.
        eapply Permutation_NoDup; [apply Permutation_cons_append|]. now constructor. }
    destruct Hstep as [Hwf1 Hin1]. destruct (IH _ Hwf1 Hfresh) as [Hwf' Hin'].
    split; auto.
Qed.

Lemma user_ids_stay_distinct_witness : wf_db (final second_of_may db0).
Proof.
  apply (user_ids_stay_distinct second_of_may db0 db0_wf).
  vm_compute. intuition discriminate.
Defined.

(** ** Beyond the claims: the statistics *)

Lemma count_documents_insert_one {A} (P : A -> bool) x l :
  count_documents P (insert_one x l) = count_documents P l + (if P x then 1 else 0).
Proof.
  unfold count_documents, insert_one. rewrite filter_app, length_app. simpl.
  destruct (P x); simpl; lia.
Qed.

Lemma count_documents_update_one_keep {A} (P F : A -> bool) upd l :
  (forall x, P (upd x) = P x) ->
  count_documents P (update_one F upd l) = count_documents P l.
Proof.
  intros HP. unfold count_documents. apply (f_equal Z.of_nat).
  induction l as [|x l IH]; simpl; auto.
  destruct (F x); simpl.
  - rewrite HP. now destruct (P x).
  - destruct (P x); simpl; now rewrite IH.
Qed.

Lemma count_documents_update_one_found {A} (P F : A -> bool) upd l d :
  find_one F l = Some d ->
  count_documents P (update_one F upd l) =
    count_documents P l - (if P d then 1 else 0) + (if P (upd d) then 1 else 0).
Proof.
  unfold count_documents, find_one. induction l as [|x l IH]; simpl; [discriminate|].
  destruct (F x); simpl.
  - intros [= ->]. destruct (P d), (P (upd d)); cbn [length]; lia.
  - intros H. specialize (IH H). destruct (P x); cbn [length]; lia.
Qed.

Lemma get_stats_run moderator s :
  get_stats moderator s = (Ok (pending_posts s, approved_posts s, total_users s), s).
Proof. reflexivity. Qed.

(** X11.  [get_stats] reports the numbers of pending posts, approved posts
    and users in the store, and these follow the workflow: a successful post
    creation adds one pending post; a successful review that names approved
    or rejected takes one post out of the pending count, and adds one to the
    approved count when it names approved; [register_user] and [sync_user]
    add at most one user and touch no count of posts; no other request, and
    no request that fails, changes any of the three numbers. *)
Theorem stats_follow_the_workflow env req s moderator :
  let out := fst (serve env req s) in
  let s' := snd (serve env req s) in
  get_stats moderator s = (Ok (pending_posts s, approved_posts s, total_users s), s) /\
  match req with
  | POST_posts _ _ =>
      total_users s' = total_users s /\ approved_posts s' = approved_posts s /\
      pending_posts s' = pending_posts s + (if is_ok out then 1 else 0)
  | PUT_posts_review _ _ body =>
      total_users s' = total_users s /\
      (is_ok out = false ->
       pending_posts s' = pending_posts s /\ approved_posts s' = approved_posts s) /\
      (is_ok out = true ->
       exists review_data,
         validate_PostUpdate body = Ok review_data /\
         pending_posts s' =
           pending_posts s -
           (if PostStatus_eqb (PostUpdate.status review_data) PENDING then 0 else 1) /\
         approved_posts s' =
           approved_posts s +
           (if PostStatus_eqb (PostUpdate.status review_data) APPROVED then 1 else 0))
  | POST_auth_register _ | POST_auth_sync _ =>
      pending_posts s' = pending_posts s /\ approved_posts s' = approved_posts s /\
      total_users s <= total_users s' <= total_users s + 1
  | _ =>
      pending_posts s' = pending_posts s /\ approved_posts s' = approved_posts s /\
      total_users s' = total_users s
  end.
Proof.
  cbv zeta. split; [apply get_stats_run|].
  pose proof (serve_reads env req s) as Hreads.
  unfold pending_posts, approved_posts, total_users.
  destruct req; try (rewrite Hreads; now auto).
  - unfold serve. rewrite fmap_run, register_user_run.
    destruct (find_one _ (users s)); simpl; repeat split; try lia.
    all: rewrite count_documents_insert_one; simpl; lia.
  - unfold serve. rewrite fmap_run, sync_user_run.
    destruct (sub payload) as [c|], (email payload) as [e|]; simpl;
      try (repeat split; lia).
    destruct (String.eqb c "" || String.eqb e ""); simpl; try (repeat split; lia).
    destruct (find_one _ (users s)); simpl; repeat split; try lia.
    all: rewrite count_documents_insert_one; simpl; lia.
  - rewrite serve_POST_posts. destruct (caller payload s) as [v|]; simpl;
      try (repeat split; lia).
    destruct (validate_PostCreate body); simpl; try (repeat split; lia).
    rewrite create_post_run. cbv zeta. destruct (_ && _); simpl; try (repeat split; lia).
    rewrite !count_documents_insert_one. simpl. repeat split; try lia.
    destruct (is_day _ _); now rewrite !count_documents_update_one_keep.
  - rewrite serve_PUT_posts_review. destruct (caller payload s) as [v|]; simpl;
      try (repeat split; auto; discriminate).
    destruct (is_moderator_role _); simpl; try (repeat split; auto; discriminate).
    destruct (validate_PostUpdate body) as [rd|]; simpl;
      try (repeat split; auto; discriminate).
    rewrite review_post_run.
    destruct (find_one (post_id_is post_id) (posts s)) as [q|] eqn:Hq; simpl;
      try (repeat split; auto; discriminate).
    destruct (PostStatus_eqb (Post.status q) PENDING) eqn:Hst; simpl;
      try (repeat split; auto; discriminate).
    split; [reflexivity|]. split; [discriminate|]. intros _. exists rd.
    split; [reflexivity|].
    rewrite !(count_documents_update_one_found _ _ _ _ _ Hq). unfold status_is. simpl.
    rewrite Hst. destruct (Post.status q); try discriminate.
    destruct (PostUpdate.status rd); simpl; split; lia.
  - rewrite serve_POST_posts_resonate. destruct (caller payload s); simpl; auto.
    now rewrite !count_documents_update_one_keep.
  - rewrite serve_POST_posts_cherish. destruct (caller payload s); simpl; auto.
    now rewrite !count_documents_update_one_keep.
Qed.

Lemma stats_follow_the_workflow_witness :
  get_stats mona db0 = (Ok (1, 2, 3), db0) /\
  fst (get_stats mona (snd (serve (env_at "2024-05-02" 200 "n1")
                              (PUT_posts_review as_mona "p1" (a_review "approved")) db0))) =
    Ok (0, 3, 3).
Proof.
  pose proof (stats_follow_the_workflow (env_at "2024-05-02" 200 "n1")
                (PUT_posts_review as_mona "p1" (a_review "approved")) db0 mona) as H.
  cbv zeta in H. destruct H as (H0 & Hu & _ & Hok).
  destruct (Hok eq_refl) as (rd & Hv & Hp & Ha).
  injection Hv as <-.
  split; [exact H0|]. rewrite get_stats_run. cbn [fst]. rewrite Hp, Ha, Hu. reflexivity.
Defined.

(** ** Beyond the claims: the quota on another day *)

(** X12.  The limit is per day string: whatever [posts_today] says, a user
    whose [last_post_date] is not the current day (a later day, or an earlier
    one) can create a post; the creation succeeds, and afterwards the stored
    user has [posts_today = 1] and the current day as [last_post_date]. *)
Theorem creation_allowed_on_another_day env payload body s user post_data :
  wf_db s ->
  caller payload s = Ok user ->
  validate_PostCreate body = Ok post_data ->
  User.last_post_date user <> Some (today env) ->
  let out := serve env (POST_posts payload body) s in
  fst out = Ok (Created "Post created successfully" (uuid4 env 0%nat)) /\
  exists user',
    caller payload (snd out) = Ok user' /\
    User.posts_today user' = 1 /\
    User.last_post_date user' = Some (today env) /\
    same_identity user user'.
Proof.
  intros Hwf Hc Hv Hd. cbv zeta. apply is_day_false in Hd.
  rewrite serve_POST_posts, Hc, Hv, create_post_run. cbv zeta. rewrite Hd. simpl.
  split; [reflexivity|].
  destruct (caller_ok _ _ _ Hc) as (c & Hs & Hne & Hf).
  pose proof (find_clerk_after_create env s c user user Hwf Hf) as H.
  rewrite Hd, String.eqb_refl in H.
  eexists. split; [eapply caller_resolves; eauto|]. now repeat split.
Qed.

Lemma creation_allowed_on_another_day_witness :
  fst (serve (env_at "2024-05-02" 300 "n7") (POST_posts as_alice (a_post "again")) db_full) =
    Raise (HTTPException 429 "Daily post limit reached (3 posts per day)") /\
  fst (serve (env_at "2024-05-03" 300 "n7") (POST_posts as_alice (a_post "again")) db_full) =
    Ok (Created "Post created successfully" "n7") /\
  fst (serve (env_at "2024-05-01" 300 "n7") (POST_posts as_alice (a_post "again")) db_full) =
    Ok (Created "Post created successfully" "n7").
Proof.
  assert (Hwf : wf_db db_full).
  { unfold wf_db. simpl. repeat constructor; simpl; intuition discriminate. }
  split; [reflexivity|]. split.
  - apply (creation_allowed_on_another_day (env_at "2024-05-03" 300 "n7") as_alice
             (a_post "again") db_full alice_full
             {| PostCreate.content := "again"; PostCreate.tag := HUMAN2HUMAN |}
             Hwf eq_refl eq_refl).
    discriminate.
  - apply (creation_allowed_on_another_day (env_at "2024-05-01" 300 "n7") as_alice
             (a_post "again") db_full alice_full
             {| PostCreate.content := "again"; PostCreate.tag := HUMAN2HUMAN |}
             Hwf eq_refl eq_refl).
    discriminate.
Defined.

(** ** Beyond the claims: from creation to the listings *)

Lemma listing_has_status st key dir n l p :
  In p (firstn n (sort key dir (filter (status_is st) l))) ->
  Post.status p = st /\ In p l.
Proof.
  intros H. apply firstn_In in H.
  apply (Permutation_in _ (sort_perm key dir _)) in H.
  apply filter_In in H as [Hin Hst]. split; [now apply status_is_true | exact Hin].
Qed.

Lemma listing_is_complete st key dir n l p :
  count_documents (status_is st) l <= Z.of_nat n ->
  In p l -> Post.status p = st ->
  In p (firstn n (sort key dir (filter (status_is st) l))).
Proof.
  unfold count_documents. intros Hn Hin Hst.
  rewrite firstn_all2.
  - apply (Permutation_in _ (Permutation_sym (sort_perm key dir _))).
    apply filter_In. split; auto. unfold status_is. rewrite Hst. now destruct st.
  - rewrite (Permutation_length (sort_perm key dir _)). lia.
Qed.

Lemma answer_eq {A} (a b : A) (s s' : db) : (Ok a, s) = (Ok b, s') -> a = b.
Proof. congruence. Qed.

Lemma pending_listing_has moderator s l p :
  get_pending_posts moderator s = (Ok l, s) -> In p l ->
  Post.status p = PENDING /\ In p (posts s).
Proof.
  rewrite get_pending_posts_run. intros E. apply answer_eq in E. subst l.
  apply listing_has_status.
Qed.

Lemma approved_listing_has moderator s l p :
  get_approved_posts moderator s = (Ok l, s) -> In p l ->
  Post.status p = APPROVED /\ In p (posts s).
Proof.
  rewrite get_approved_posts_run. intros E. apply answer_eq in E. subst l.
  apply listing_has_status.
Qed.

Lemma feed_has env user s l p :
  get_daily_feed env user s = (Ok l, s) -> In p l ->
  Post.status p = APPROVED /\ In p (posts s).
Proof.
  rewrite get_daily_feed_run. intros E. apply answer_eq in E. subst l.
  apply listing_has_status.
Qed.

Lemma In_update_one_found {A} (F : A -> bool) upd l d :
  find_one F l = Some d -> In (upd d) (update_one F upd l).
Proof.
  unfold find_one. induction l as [|x l IH]; simpl; [discriminate|].
  destruct (F x); simpl.
  - intros [= ->]. now left.
  - intros H. right. auto.
Qed.

(** X13.  A post that has just been created is in the moderation queue and
    nowhere else: after a successful creation the new post, pending and with
    the generated identifier the answer names, is listed by
    [get_pending_posts] provided fewer than 100 posts were pending, and is
    listed neither by [get_approved_posts] nor by [get_daily_feed]. *)
Theorem created_post_is_queued env payload body s answer s' :
  serve env (POST_posts payload body) s = (Ok answer, s') ->
  exists post,
    answer = Created "Post created successfully" (Post.id post) /\
    Post.id post = uuid4 env 0%nat /\
    Post.status post = PENDING /\
    Post.resonates post = 0 /\ Post.cherishes post = 0 /\
    Post.reviewed_at post = None /\ Post.reviewer_id post = None /\
    (pending_posts s < 100 ->
     forall moderator, exists l, get_pending_posts moderator s' = (Ok l, s') /\ In post l) /\
    (forall moderator l, get_approved_posts moderator s' = (Ok l, s') -> ~ In post l) /\
    (forall env' user l, get_daily_feed env' user s' = (Ok l, s') -> ~ In post l).
Proof.
  rewrite serve_POST_posts. destruct (caller payload s) as [u|]; [|discriminate].
  destruct (validate_PostCreate body) as [pd|]; [|discriminate].
  rewrite create_post_run. cbv zeta. destruct (_ && _); [discriminate|].
  intros [= <- <-].
  exists (Post_init (uuid4 env 0%nat) (now env) (User.id u)
            (PostCreate.content pd) (PostCreate.tag pd)).
  do 7 (split; [reflexivity|]). split; [|split].
  - intros Hlt moderator. rewrite get_pending_posts_run. eexists. split; [reflexivity|].
    cbn [posts]. apply listing_is_complete; auto.
    + rewrite count_documents_insert_one. unfold pending_posts in Hlt.
      change (Z.of_nat 100) with 100. destruct (status_is PENDING _); lia.
    + unfold insert_one. apply in_or_app. right. now left.
  - intros moderator l E Hin.
    apply (approved_listing_has _ _ _ _ E) in Hin as [Hst _]. discriminate.
  - intros env' user l E Hin.
    apply (feed_has _ _ _ _ _ E) in Hin as [Hst _]. discriminate.
Qed.

Lemma created_post_is_queued_witness :
  exists post l,
    Post.id post = "n1" /\
    get_pending_posts mona
      (snd (serve (env_at "2024-05-02" 200 "n1") (POST_posts as_alice (a_post "one")) db0)) =
      (Ok l, snd (serve (env_at "2024-05-02" 200 "n1")
                    (POST_posts as_alice (a_post "one")) db0)) /\
    In post l.
Proof.
  destruct (created_post_is_queued (env_at "2024-05-02" 200 "n1") as_alice (a_post "one")
              db0 (Created "Post created successfully" "n1")
              (snd (serve (env_at "2024-05-02" 200 "n1")
                      (POST_posts as_alice (a_post "one")) db0)) eq_refl)
    as (post & Hans & Hid & _ & _ & _ & _ & _ & Hq & _).
  destruct (Hq ltac:(vm_compute; reflexivity) mona) as (l & Hl & Hin).
  exists post, l. split; [exact Hid|]. split; [exact Hl | exact Hin].
Defined.



(** ** Beyond the claims: reactions and reviews *)

Lemma update_one_comm {A} (P Q : A -> bool) f g (l : list A) :
  (forall x, P (g x) = P x) -> (forall x, Q (f x) = Q x) ->
  (forall x, f (g x) = g (f x)) ->
  update_one P f (update_one Q g l) = update_one Q g (update_one P f l).
Proof.
  intros HP HQ Hfg. induction l as [|x l IH]; simpl; auto.
  destruct (P x) eqn:Px, (Q x) eqn:Qx; simpl;
    rewrite ?HP, ?HQ, ?Px, ?Qx; try reflexivity.
  - now rewrite Hfg.
  - now rewrite IH.
Qed.

Lemma caller_users payload s s' : users s' = users s -> caller payload s' = caller payload s.
Proof. intros E. unfold caller. now rewrite !get_current_user_run, E. Qed.

Lemma serve_reaction req :
  is_reaction req = true ->
  exists payload post_id f message,
    (f = inc_resonates 1 \/ f = inc_cherishes 1) /\
    forall env s,
      serve env req s =
        match caller payload s with
        | Raise e => (Raise e, s)
        | Ok _ => (Ok (Message message),
                   {| users := users s;
                      posts := update_one (post_id_is post_id) f (posts s) |})
        end.
Proof.
  destruct req; try discriminate; intros _.
  - exists payload, post_id, (inc_resonates 1), "Resonated with post".
    split; [now left|]. intros env s. apply serve_POST_posts_resonate.
  - exists payload, post_id, (inc_cherishes 1), "Cherished post".
    split; [now right|]. intros env s. apply serve_POST_posts_cherish.
Qed.

(** X15.  Reactions commute: for two requests of the routes [resonate] and
    [cherish], on the same post or on different ones and by any callers, the
    store after serving them one way round is the store after serving them
    the other way round, and each gets the answer it would get first. *)
Theorem reactions_commute env1 env2 req1 req2 s :
  is_reaction req1 = true -> is_reaction req2 = true ->
  final [(env1, req1); (env2, req2)] s = final [(env2, req2); (env1, req1)] s /\
  fst (serve env2 req2 (snd (serve env1 req1 s))) = fst (serve env2 req2 s) /\
  fst (serve env1 req1 (snd (serve env2 req2 s))) = fst (serve env1 req1 s).
Proof.
  intros H1 H2.
  destruct (serve_reaction req1 H1) as (p1 & i1 & f1 & m1 & Hf1 & E1).
  destruct (serve_reaction req2 H2) as (p2 & i2 & f2 & m2 & Hf2 & E2).
  rewrite !final_cons. unfold final. simpl serve_all. cbn [snd].
  assert (Hu1 : users (snd (serve env1 req1 s)) = users s)
    by (rewrite E1; now destruct (caller p1 s)).
  assert (Hu2 : users (snd (serve env2 req2 s)) = users s)
    by (rewrite E2; now destruct (caller p2 s)).
  rewrite (E2 env2 (snd (serve env1 req1 s))), (E1 env1 (snd (serve env2 req2 s))).
  rewrite (caller_users p2 _ _ Hu1), (caller_users p1 _ _ Hu2).
  rewrite (E1 env1 s), (E2 env2 s).
  destruct (caller p1 s), (caller p2 s); simpl; repeat split; auto.
  f_equal. apply update_one_comm.
  - intros x. destruct Hf1 as [-> | ->]; reflexivity.
  - intros x. destruct Hf2 as [-> | ->]; reflexivity.
  - intros x. destruct Hf1 as [-> | ->], Hf2 as [-> | ->]; reflexivity.
Qed.

Lemma reactions_commute_witness :
  final [(env_at "2024-05-02" 200 "n1", POST_posts_resonate as_alice "p2");
         (env_at "2024-05-02" 201 "n2", POST_posts_cherish as_sam "p2")] db0 =
  final [(env_at "2024-05-02" 201 "n2", POST_posts_cherish as_sam "p2");
         (env_at "2024-05-02" 200 "n1", POST_posts_resonate as_alice "p2")] db0.
Proof.
  apply (reactions_commute (env_at "2024-05-02" 200 "n1") (env_at "2024-05-02" 201 "n2")
           (POST_posts_resonate as_alice "p2") (POST_posts_cherish as_sam "p2") db0
           eq_refl eq_refl).
Defined.

(** X16.  The [reviewer_id] of the review body is required and never used:
    two reviews that differ only in it have the same outcome and leave the
    same store, the reviewer recorded being the caller; a body without it is
    refused with a validation error even when the status is valid. *)
Theorem review_ignores_reviewer_id_of_body env payload post_id st s :
  (forall r1 r2,
     serve env (PUT_posts_review payload post_id
                  {| body_status := st; body_reviewer_id := Some r1 |}) s =
     serve env (PUT_posts_review payload post_id
                  {| body_status := st; body_reviewer_id := Some r2 |}) s) /\
  (forall user text status,
     caller payload s = Ok user ->
     is_moderator_role (User.role user) = true ->
     st = Some text -> PostStatus_of_value text = Some status ->
     serve env (PUT_posts_review payload post_id
                  {| body_status := st; body_reviewer_id := None |}) s =
       (Raise (RequestValidationError "reviewer_id"), s) /\
     forall r answer s',
       serve env (PUT_posts_review payload post_id
                    {| body_status := st; body_reviewer_id := Some r |}) s = (Ok answer, s') ->
       exists post,
         find_one (post_id_is post_id) (posts s') = Some post /\
         Post.reviewer_id post = Some (User.id user)).
Proof.
  split.
  - intros r1 r2. rewrite !serve_PUT_posts_review.
    destruct (caller payload s) as [u|]; [|reflexivity].
    destruct (is_moderator_role _); [|reflexivity].
    unfold validate_PostUpdate. simpl. destruct st as [text|]; [|reflexivity].
    destruct (PostStatus_of_value text); [|reflexivity].
    now rewrite !review_post_run.
  - intros user text status Hc Hm -> Hst. split.
    { rewrite serve_PUT_posts_review, Hc, Hm.
      unfold validate_PostUpdate. simpl. now rewrite Hst. }
    intros r answer s'. rewrite serve_PUT_posts_review, Hc, Hm.
    unfold validate_PostUpdate. simpl. rewrite Hst, review_post_run. simpl.
    destruct (find_one (post_id_is post_id) (posts s)) as [q|] eqn:Hq; [|discriminate].
    destruct (PostStatus_eqb (Post.status q) PENDING); [|discriminate].
    intros [= _ <-]. simpl. eexists. split.
    + rewrite find_one_update_one_same by reflexivity. rewrite Hq. reflexivity.
    + reflexivity.
Qed.

Lemma review_ignores_reviewer_id_of_body_witness :
  serve (env_at "2024-05-02" 200 "n1")
        (PUT_posts_review as_mona "p1"
           {| body_status := Some "approved"; body_reviewer_id := None |}) db0 =
    (Raise (RequestValidationError "reviewer_id"), db0) /\
  exists post,
    find_one (post_id_is "p1")
      (posts (snd (serve (env_at "2024-05-02" 200 "n1")
                     (PUT_posts_review as_mona "p1"
                        {| body_status := Some "approved";
                           body_reviewer_id := Some "u-sam" |}) db0))) = Some post /\
    Post.reviewer_id post = Some "u-mona".
Proof.
  destruct (review_ignores_reviewer_id_of_body (env_at "2024-05-02" 200 "n1") as_mona "p1"
              (Some "approved") db0) as (_ & H).
  destruct (H mona "approved" APPROVED eq_refl eq_refl eq_refl eq_refl) as (Hnone & Hsome).
  split; [exact Hnone|].
  exact (Hsome "u-sam" (Message "Post approved") _ eq_refl).
Defined.

(** ** Beyond the claims: registration and the first sync *)

(** X17.  [sync_user] looks a user up by subject, never by email, and the
    [clerk_id] of a registered user is a generated identifier.  So after a
    registration, a first sync with the same email and a subject that is not
    that generated identifier does not find the registered user: it stores a
    second user of that email with role new_user, whatever role the invite
    code gave the first, and the payload resolves to the second user. *)
Theorem registered_role_is_not_inherited_by_sync env env' user_data payload c s :
  find_one (email_is (UserCreate.email user_data)) (users s) = None ->
  sub payload = Some c -> c <> "" ->
  email payload = Some (UserCreate.email user_data) ->
  UserCreate.email user_data <> "" ->
  find_one (clerk_id_is c) (users s) = None ->
  c <> uuid4 env 0%nat ->
  let s1 := snd (register_user env user_data s) in
  let out := sync_user env' payload s1 in
  exists registered synced,
    users (snd out) = (users s ++ [registered; synced])%list /\
    fst out = Ok ("User created", synced) /\
    User.email registered = UserCreate.email user_data /\
    User.email synced = UserCreate.email user_data /\
    User.role synced = NEW_USER /\
    caller payload (snd out) = Ok synced /\
    (UserCreate.invite_code user_data = Some "aieventuallylose" ->
     User.role registered = MODERATOR /\
     forall env'' req,
       moderators_only req = true -> payload_of req = Some payload ->
       fst (serve env'' req (snd out)) =
         Raise (HTTPException 403 "Moderator access required")).
Proof.
  intros Hmail Hs Hc He Hne Hnone Hgen. cbv zeta.
  rewrite register_user_run, Hmail. cbv zeta. cbn [snd].
  set (role := match UserCreate.invite_code user_data with
               | Some code => if String.eqb code "aieventuallylose"
                              then MODERATOR else NEW_USER
               | None => NEW_USER
               end).
  set (registered := User_init (uuid4 env 1%nat) (now env) (uuid4 env 0%nat)
                       (UserCreate.email user_data) role).
  set (synced := User_init (uuid4 env' 0%nat) (now env') c
                   (UserCreate.email user_data) NEW_USER).
  assert (Hnone1 : find_one (clerk_id_is c) (insert_one registered (users s)) = None).
  { rewrite (find_one_insert_one_none _ _ _ Hnone). unfold clerk_id_is, key_is. simpl.
    destruct (String.eqb_spec (uuid4 env 0%nat) c); [congruence | reflexivity]. }
  assert (Hrun : sync_user env' payload
                   {| users := insert_one registered (users s); posts := posts s |} =
                 (Ok ("User created", synced),
                  {| users := insert_one synced (insert_one registered (users s));
                     posts := posts s |})).
  { rewrite sync_user_run, Hs, He. simpl.
    destruct (String.eqb_spec c ""); [contradiction|].
    destruct (String.eqb_spec (UserCreate.email user_data) ""); [contradiction|].
    simpl. now rewrite Hnone1. }
  rewrite Hrun. cbn [fst snd users].
  assert (Hres : caller payload {| users := insert_one synced (insert_one registered (users s));
                                   posts := posts s |} = Ok synced).
  { apply (caller_resolves _ _ c); auto. simpl.
    rewrite (find_one_insert_one_none _ _ _ Hnone1). unfold clerk_id_is, key_is. simpl.
    now rewrite String.eqb_refl. }
  exists registered, synced. split.
  { unfold insert_one. now rewrite <- app_assoc. }
  do 5 (split; [reflexivity || exact Hres|]).
  intros Hcode. split.
  - unfold registered, role. simpl. now rewrite Hcode.
  - intros env'' req Hmod Hpay.
    destruct req; try discriminate; injection Hpay as ->; unfold serve;
      now rewrite bind_current_user, Hres, bind_moderator.
Qed.

Lemma registered_role_is_not_inherited_by_sync_witness :
  let s1 := snd (register_user (env_at "2024-05-02" 200 "n1")
                   (a_registration "zoe@example.com" (Some "aieventuallylose")) db0) in
  let s2 := snd (sync_user (env_at "2024-05-02" 201 "n2") as_zoe s1) in
  map User.role (users s2) = [NEW_USER; MODERATOR; SEED_USER; MODERATOR; NEW_USER] /\
  fst (serve (env_at "2024-05-02" 202 "n3") (GET_posts_pending as_zoe) s2) =
    Raise (HTTPException 403 "Moderator access required").
Proof.
  cbv zeta. split; [reflexivity|].
  destruct (registered_role_is_not_inherited_by_sync (env_at "2024-05-02" 200 "n1")
              (env_at "2024-05-02" 201 "n2")
              (a_registration "zoe@example.com" (Some "aieventuallylose"))
              as_zoe "clerk_zoe" db0 eq_refl eq_refl ltac:(discriminate) eq_refl
              ltac:(discriminate) eq_refl ltac:(discriminate))
    as (r & y & _ & _ & _ & _ & _ & _ & H).
  destruct (H eq_refl) as (_ & H403).
  exact (H403 (env_at "2024-05-02" 202 "n3") (GET_posts_pending as_zoe) eq_refl eq_refl).
Defined.
